(** * Lineage queries over an ML-Metadata store: a model of [tfx_util.py]

    The development embeds the functions of
    [model_card_toolkit/utils/tfx_util.py] that read an ML-Metadata (MLMD)
    store and annotate a model card, and proves the properties stated for
    them.  Python values are embedded as data, exceptions as an error
    result, and the one function that mutates its argument
    ([annotate_eval_result_metrics]) as a state transformer. *)

From Stdlib Require Import ZArith String Ascii List DecimalString.
From Corelib Require Import PrimFloat.
From stdpp Require Import gmap strings list fin_maps.

#[local] Set Warnings "-register-all,-clear-no-such-hyp".
#[local] Open Scope Z_scope.

(** ** Python values *)

(** The values the module handles: property values read from the store,
    slice keys and the JSON-like metric values of an evaluation result.
    Text is a [string] with one character per code point; a dict is the
    list of its items in insertion order, with text keys. *)
Inductive PyVal : Type :=
| PyNone
| PyInt (z : Z)
| PyFloat (f : float)
| PyStr (s : string)
| PyTuple (items : list PyVal)
| PyList (items : list PyVal)
| PyDict (items : list (string * PyVal)).

(** [type(v).__name__] *)
Definition type_name (v : PyVal) : string :=
  match v with
  | PyNone => "NoneType"
  | PyInt _ => "int"
  | PyFloat _ => "float"
  | PyStr _ => "str"
  | PyTuple _ => "tuple"
  | PyList _ => "list"
  | PyDict _ => "dict"
  end.

(** [isinstance(v, tuple)] *)
Definition is_tuple (v : PyVal) : bool :=
  match v with PyTuple _ => true | _ => false end.

(** ** The metadata store *)

(** [metadata_store_pb2.Value]: a oneof [value] over three fields. *)
Inductive Value : Type :=
| IntValue (i : Z)
| DoubleValue (d : float)
| StringValue (s : string)
| ValueNotSet.

(** [v.WhichOneof('value')]: the name of the populated field, if any. *)
Definition WhichOneof (v : Value) : option string :=
  match v with
  | IntValue _ => Some "int_value"
  | DoubleValue _ => Some "double_value"
  | StringValue _ => Some "string_value"
  | ValueNotSet => None
  end.

(** Reading a field that is not the populated one gives the field's
    default. *)
Definition int_value (v : Value) : Z :=
  match v with IntValue i => i | _ => 0 end.
Definition double_value (v : Value) : float :=
  match v with DoubleValue d => d | _ => 0%float end.
Definition string_value (v : Value) : string :=
  match v with StringValue s => s | _ => "" end.

Module ArtifactType.
Record t := { id : Z; name : string }.
End ArtifactType.

Module ExecutionType.
Record t := { id : Z; name : string }.
End ExecutionType.

Module Artifact.
Record t := {
  id : Z;
  type_id : Z;
  uri : string;
  properties : gmap string Value;
  custom_properties : gmap string Value }.
End Artifact.

Module Execution.
Record t := {
  id : Z;
  type_id : Z;
  properties : gmap string Value;
  custom_properties : gmap string Value }.
End Execution.

Module Event.
Inductive Type_ :=
| UNKNOWN | DECLARED_OUTPUT | DECLARED_INPUT | INPUT | OUTPUT
| INTERNAL_INPUT | INTERNAL_OUTPUT.

#[global] Instance Type_eq_dec : EqDecision Type_.
Proof. solve_decision. Defined.

Record t := { artifact_id : Z; execution_id : Z; type : Type_ }.
End Event.

(** ** Exceptions and results *)

Inductive PyExcClass := ValueError | TypeError | KeyError | IndexError.

(** The exceptions that can leave the module: the six [ValueError]s it
    raises itself, each with the data its message prints, and the
    interpreter's own errors on unpacking, subscripting and indexing. *)
Inductive Exception : Type :=
| MissingArtifactTypes (missing_types : gset string)
| MissingExecutionTypes (missing_types : gset string)
| ModelIdNotFound (model_id : Z)
| NotAnInstanceOfModel (model : Artifact.t)
| SliceNotTuple (found : string)
| UnexpectedMetricValue (keys : list string)
| UnpackWrongLength (expected got : nat)
| UnpackNonIterable (found : string)
| NotSubscriptable (found : string)
| MissingKey (key : string)
| IndexOutOfRange.

Definition exc_class (e : Exception) : PyExcClass :=
  match e with
  | MissingArtifactTypes _ | MissingExecutionTypes _ | ModelIdNotFound _
  | NotAnInstanceOfModel _ | SliceNotTuple _ | UnexpectedMetricValue _
  | UnpackWrongLength _ _ => ValueError
  | UnpackNonIterable _ | NotSubscriptable _ => TypeError
  | MissingKey _ => KeyError
  | IndexOutOfRange => IndexError
  end.

Inductive result (A : Type) : Type :=
| Ok (a : A)
| Raise (e : Exception).
Arguments Ok {A} a.
Arguments Raise {A} e.

#[global] Instance result_ret : MRet result := @Ok.
#[global] Instance result_bind : MBind result := λ A B f r,
  match r with Ok a => f a | Raise e => Raise e end.

(** [d[key]] on a dict given as a finite map *)
Definition getitem {V} (d : gmap string V) (key : string) : result V :=
  match d !! key with Some v => Ok v | None => Raise (MissingKey key) end.

(** ** Store queries *)

(** The store is ML-Metadata's, outside the module.  It is modelled by the
    tables it holds and the six queries the module sends: each query by ids
    selects, in table order, the rows whose id is among those asked for.
    The ids are any iterable in the source and a list here; a set is passed
    as the list of its elements. *)
Module MetadataStore.
Record t := {
  artifact_types : list ArtifactType.t;
  execution_types : list ExecutionType.t;
  artifacts : list Artifact.t;
  executions : list Execution.t;
  events : list Event.t }.

Definition get_artifact_types (store : t) : list ArtifactType.t :=
  artifact_types store.

Definition get_execution_types (store : t) : list ExecutionType.t :=
  execution_types store.

Definition get_artifacts_by_id (store : t) (ids : list Z) : list Artifact.t :=
  filter (λ a, Artifact.id a ∈ ids) (artifacts store).

Definition get_executions_by_id (store : t) (ids : list Z) : list Execution.t :=
  filter (λ e, Execution.id e ∈ ids) (executions store).

Definition get_events_by_artifact_ids (store : t) (ids : list Z) : list Event.t :=
  filter (λ ev, Event.artifact_id ev ∈ ids) (events store).

Definition get_events_by_execution_ids (store : t) (ids : list Z) : list Event.t :=
  filter (λ ev, Event.execution_id ev ∈ ids) (events store).
End MetadataStore.
Import MetadataStore.

(** ** Type resolver *)

Definition _TFX_DATASET_TYPE : string := "Examples".
Definition _TFX_STATS_TYPE : string := "ExampleStatistics".
Definition _TFX_MODEL_TYPE : string := "Model".
Definition _TFX_METRICS_TYPE : string := "ModelEvaluation".
Definition _TFX_TRAINER_TYPE : string := "tfx.components.trainer.component.Trainer".

Record PipelineTypes := {
  dataset_type : ArtifactType.t;
  stats_type : ArtifactType.t;
  model_type : ArtifactType.t;
  metrics_type : ArtifactType.t;
  trainer_type : ExecutionType.t }.

(** [{x.name: x for x in xs}]: a later entry replaces an earlier one of the
    same name. *)
Definition index_by_name {A} (name : A → string) (xs : list A) : gmap string A :=
  foldl (λ d x, <[name x := x]> d) ∅ xs.

Definition expected_artifact_types : gset string :=
  {[ _TFX_DATASET_TYPE; _TFX_STATS_TYPE; _TFX_MODEL_TYPE; _TFX_METRICS_TYPE ]}.

Definition expected_execution_types : gset string := {[ _TFX_TRAINER_TYPE ]}.

Definition _get_tfx_pipeline_types (store : MetadataStore.t) : result PipelineTypes :=
  let artifact_types := index_by_name ArtifactType.name (get_artifact_types store) in
  let missing_types := expected_artifact_types ∖ dom artifact_types in
  if bool_decide (missing_types ≠ ∅) then Raise (MissingArtifactTypes missing_types) else
  let execution_types := index_by_name ExecutionType.name (get_execution_types store) in
  let missing_types := expected_execution_types ∖ dom execution_types in
  if bool_decide (missing_types ≠ ∅) then Raise (MissingExecutionTypes missing_types) else
  dataset ← getitem artifact_types _TFX_DATASET_TYPE;
  stats ← getitem artifact_types _TFX_STATS_TYPE;
  model ← getitem artifact_types _TFX_MODEL_TYPE;
  metrics ← getitem artifact_types _TFX_METRICS_TYPE;
  trainer ← getitem execution_types _TFX_TRAINER_TYPE;
  mret {| dataset_type := dataset; stats_type := stats; model_type := model;
          metrics_type := metrics; trainer_type := trainer |}.

(** ** Model validator *)

Definition _validate_model_id (store : MetadataStore.t) (model_type : ArtifactType.t)
    (model_id : Z) : result Artifact.t :=
  let model_artifacts := get_artifacts_by_id store [model_id] in
  match model_artifacts with
  | [] => Raise (ModelIdNotFound model_id)
  | model :: _ =>
      if bool_decide (Artifact.type_id model ≠ ArtifactType.id model_type)
      then Raise (NotAnInstanceOfModel model)
      else Ok model
  end.

(** ** Lineage walker *)

Inductive _Direction := ANCESTOR | SUCCESSOR.

(** The [traverse_events] dict of [_get_one_hop_artifacts], with its two
    keys as fields. *)
Record TraverseEvents := {
  te_execution : list Event.Type_;
  te_artifact : list Event.Type_ }.

Definition traverse_events (direction : _Direction) : TraverseEvents :=
  match direction with
  | ANCESTOR => {| te_execution := [Event.OUTPUT; Event.DECLARED_OUTPUT];
                   te_artifact := [Event.INPUT; Event.DECLARED_INPUT] |}
  | SUCCESSOR => {| te_execution := [Event.INPUT; Event.DECLARED_INPUT];
                    te_artifact := [Event.OUTPUT; Event.DECLARED_OUTPUT] |}
  end.

(** [not filter_type or x.type_id == filter_type.id] *)
Definition type_filter_ok (filter_id : option Z) (type_id : Z) : bool :=
  match filter_id with
  | None => true
  | Some i => bool_decide (type_id = i)
  end.

(** The first hop of both walkers:
    [set(event.execution_id
         for event in store.get_events_by_artifact_ids(artifact_ids)
         if event.type in accepted)]. *)
Definition hop_executions_ids (store : MetadataStore.t) (artifact_ids : list Z)
    (accepted : list Event.Type_) : gset Z :=
  list_to_set
    (Event.execution_id <$>
       filter (λ event, Event.type event ∈ accepted)
              (get_events_by_artifact_ids store artifact_ids)).

(** The second hop of the artifact walker:
    [set(event.artifact_id
         for event in store.get_events_by_execution_ids(executions_ids)
         if event.type in accepted)]. *)
Definition hop_artifacts_ids (store : MetadataStore.t) (executions_ids : gset Z)
    (accepted : list Event.Type_) : gset Z :=
  list_to_set
    (Event.artifact_id <$>
       filter (λ event, Event.type event ∈ accepted)
              (get_events_by_execution_ids store (elements executions_ids))).

Definition _get_one_hop_artifacts (store : MetadataStore.t) (artifact_ids : list Z)
    (direction : _Direction) (filter_type : option ArtifactType.t) : list Artifact.t :=
  let traverse_events := traverse_events direction in
  let executions_ids :=
    hop_executions_ids store artifact_ids (te_execution traverse_events) in
  let artifacts_ids :=
    hop_artifacts_ids store executions_ids (te_artifact traverse_events) in
  filter (λ artifact,
            type_filter_ok (ArtifactType.id <$> filter_type) (Artifact.type_id artifact))
         (get_artifacts_by_id store (elements artifacts_ids)).

Definition _get_one_hop_executions (store : MetadataStore.t) (artifact_ids : list Z)
    (direction : _Direction) (filter_type : option ExecutionType.t) : list Execution.t :=
  let traverse_event :=
    match direction with
    | ANCESTOR => [Event.OUTPUT; Event.DECLARED_OUTPUT]
    | SUCCESSOR => [Event.INPUT; Event.DECLARED_INPUT]
    end in
  let executions_ids := hop_executions_ids store artifact_ids traverse_event in
  filter (λ execution,
            type_filter_ok (ExecutionType.id <$> filter_type) (Execution.type_id execution))
         (get_executions_by_id store (elements executions_ids)).

(** ** Lineage assemblers *)

Definition get_metrics_artifacts_for_model (store : MetadataStore.t) (model_id : Z)
    (pipeline_types : option PipelineTypes) : result (list Artifact.t) :=
  pipeline_types ← match pipeline_types with
                   | None => _get_tfx_pipeline_types store
                   | Some given => Ok given
                   end;
  _ ← _validate_model_id store (model_type pipeline_types) model_id;
  mret (_get_one_hop_artifacts store [model_id] SUCCESSOR
          (Some (metrics_type pipeline_types))).

(** [s.find(sub)]: the lowest index at which [sub] occurs in [s], or -1. *)
Fixpoint str_find_from (s sub : string) (start : Z) : Z :=
  if String.prefix sub s then start
  else match s with
       | EmptyString => -1
       | String _ s' => str_find_from s' sub (start + 1)
       end.

Definition str_find (s sub : string) : Z := str_find_from s sub 0.

(** The [for example in trainer_examples] loop of
    [get_stats_artifacts_for_model], from the two empty sets. *)
Definition split_trainer_examples (trainer_examples : list Artifact.t) : gset Z * gset Z :=
  foldl (λ '(dataset_ids, transformed_example_ids) example,
           if bool_decide (str_find (Artifact.uri example) "/Transform/" ≠ -1)
           then (dataset_ids, transformed_example_ids ∪ {[Artifact.id example]})
           else (dataset_ids ∪ {[Artifact.id example]}, transformed_example_ids))
        (∅, ∅) trainer_examples.

Definition get_stats_artifacts_for_model (store : MetadataStore.t) (model_id : Z)
    (pipeline_types : option PipelineTypes) : result (list Artifact.t) :=
  pipeline_types ← match pipeline_types with
                   | None => _get_tfx_pipeline_types store
                   | Some given => Ok given
                   end;
  _ ← _validate_model_id store (model_type pipeline_types) model_id;
  let trainer_examples :=
    _get_one_hop_artifacts store [model_id] ANCESTOR
      (Some (dataset_type pipeline_types)) in
  let '(dataset_ids, transformed_example_ids) :=
    split_trainer_examples trainer_examples in
  let dataset_ids :=
    dataset_ids ∪
    list_to_set (Artifact.id <$>
                   _get_one_hop_artifacts store (elements transformed_example_ids)
                     ANCESTOR (Some (dataset_type pipeline_types))) in
  mret (_get_one_hop_artifacts store (elements dataset_ids) SUCCESSOR
          (Some (stats_type pipeline_types))).

(** ** Property reader *)

(** An MLMD node: an artifact, an execution or a context. *)
Class Node (A : Type) := {
  properties : A → gmap string Value;
  custom_properties : A → gmap string Value }.

#[global] Instance Artifact_Node : Node Artifact.t :=
  {| properties := Artifact.properties;
     custom_properties := Artifact.custom_properties |}.

#[global] Instance Execution_Node : Node Execution.t :=
  {| properties := Execution.properties;
     custom_properties := Execution.custom_properties |}.

Definition _property_value {A} `{Node A} (node : A) (name : string)
    (is_custom_property : bool) : PyVal :=
  let properties :=
    if is_custom_property then custom_properties node else properties node in
  match properties !! name with
  | None => PyNone
  | Some value =>
      if bool_decide (WhichOneof value = Some "int_value") then PyInt (int_value value)
      else if bool_decide (WhichOneof value = Some "float_value")
           then PyFloat (double_value value)
           else PyStr (string_value value)
  end.

(** ** The model card *)

(** Modelled from the spec: the classes of [model_card.py] ([ModelCard],
    [ModelDetails], [Version], [Reference], [QuantitativeAnalysis],
    [PerformanceMetric]) are not among the sources.  The spec gives the
    fragments written here: the model details (name, version label,
    reference list) and the flat list of performance-metric records (type
    name, value as text, slice label); a fresh card holds no name, no version
    label, no reference and no record. *)
Module Version.
Record t := { name : PyVal }.
End Version.

Module Reference.
Record t := { reference : PyVal }.
End Reference.

Module ModelDetails.
Record t := { name : PyVal; version : Version.t; references : list Reference.t }.
End ModelDetails.

Module PerformanceMetric.
Record t := { type : string; value : string; slice : string }.
End PerformanceMetric.

Module QuantitativeAnalysis.
Record t := { performance_metrics : list PerformanceMetric.t }.
End QuantitativeAnalysis.

Module ModelCard.
Record t := {
  model_details : ModelDetails.t;
  quantitative_analysis : QuantitativeAnalysis.t }.

(** [ModelCard()] *)
Definition new : t :=
  {| model_details :=
       {| ModelDetails.name := PyNone;
          ModelDetails.version := {| Version.name := PyNone |};
          ModelDetails.references := [] |};
     quantitative_analysis := {| QuantitativeAnalysis.performance_metrics := [] |} |}.
End ModelCard.

(** [l[i]], a negative [i] counting from the end. *)
Definition getitem_list {A} (l : list A) (i : Z) : result A :=
  let n := Z.of_nat (length l) in
  let j := if i <? 0 then i + n else i in
  if (0 <=? j) && (j <? n)
  then match l !! Z.to_nat j with
       | Some x => Ok x
       | None => Raise IndexOutOfRange
       end
  else Raise IndexOutOfRange.

(** ** Model-card generation *)

Definition generate_model_card_for_model (store : MetadataStore.t) (model_id : Z)
    (pipeline_types : option PipelineTypes) : result ModelCard.t :=
  pipeline_types ← match pipeline_types with
                   | None => _get_tfx_pipeline_types store
                   | Some given => Ok given
                   end;
  _ ← _validate_model_id store (model_type pipeline_types) model_id;
  let model_card := ModelCard.new in
  let model_details := ModelCard.model_details model_card in
  let trainers :=
    _get_one_hop_executions store [model_id] ANCESTOR
      (Some (trainer_type pipeline_types)) in
  match trainers with
  | [] => mret model_card
  | _ :: _ =>
      last_trainer ← getitem_list trainers (-1);
      first_trainer ← getitem_list trainers 0;
      mret {| ModelCard.model_details :=
                {| ModelDetails.name := _property_value last_trainer "module_file" false;
                   ModelDetails.version :=
                     {| Version.name := _property_value first_trainer "checksum_md5" false |};
                   ModelDetails.references :=
                     [ {| Reference.reference :=
                            _property_value first_trainer "pipeline_name" false |} ] |};
              ModelCard.quantitative_analysis := ModelCard.quantitative_analysis model_card |}
  end.

(** ** Metric annotator *)

(** [tfma.EvalResult], read through the one method the annotator calls:
    [get_metrics_for_all_slices()] returns a dict from slice key to a dict
    from metric name to metric value, a dict itself.  Each dict is given by
    its items in insertion order; the keys of a dict are hashable and
    pairwise different, which the list does not enforce, so that a list
    with a repeated key stands for no dict. *)
Module EvalResult.
Record t := {
  get_metrics_for_all_slices : list (PyVal * list (string * list (string * PyVal))) }.
End EvalResult.

(** [key in d] and [d[key]] on a dict given by its items *)
Definition contains_key {V} (d : list (string * V)) (key : string) : bool :=
  bool_decide (key ∈ d.*1).

Fixpoint lookup_items {V} (d : list (string * V)) (key : string) : option V :=
  match d with
  | [] => None
  | (k, v) :: d' => if bool_decide (k = key) then Some v else lookup_items d' key
  end.

Definition getitem_items {V} (d : list (string * V)) (key : string) : result V :=
  match lookup_items d key with Some v => Ok v | None => Raise (MissingKey key) end.

(** [v[key]] for a text [key]: only a dict can be subscripted by text. *)
Definition subscript (v : PyVal) (key : string) : result PyVal :=
  match v with
  | PyDict items => getitem_items items key
  | _ => Raise (NotSubscriptable (type_name v))
  end.

(** [a, b = x]: [x] is iterated and must yield exactly two values.  Text
    yields its characters and a dict its keys. *)
Definition unpack2 (x : PyVal) : result (PyVal * PyVal) :=
  match x with
  | PyTuple items | PyList items =>
      match items with
      | [a; b] => Ok (a, b)
      | _ => Raise (UnpackWrongLength 2 (length items))
      end
  | PyStr s =>
      match s with
      | String a (String b EmptyString) =>
          Ok (PyStr (String a EmptyString), PyStr (String b EmptyString))
      | _ => Raise (UnpackWrongLength 2 (String.length s))
      end
  | PyDict items =>
      match items with
      | [(a, _); (b, _)] => Ok (PyStr a, PyStr b)
      | _ => Raise (UnpackWrongLength 2 (length items))
      end
  | PyNone | PyInt _ | PyFloat _ => Raise (UnpackNonIterable (type_name x))
  end.

(** The annotator appends to the card it is given: a computation takes the
    card and returns it as it is left, with a value or the exception that
    stopped the computation. *)
Definition M (A : Type) : Type := ModelCard.t → result A * ModelCard.t.

#[global] Instance M_ret : MRet M := λ A a model_card, (Ok a, model_card).
#[global] Instance M_bind : MBind M := λ A B f m model_card,
  match m model_card with
  | (Ok a, model_card') => f a model_card'
  | (Raise e, model_card') => (Raise e, model_card')
  end.

Definition lift {A} (r : result A) : M A := λ model_card, (r, model_card).

(** [model_card.quantitative_analysis.performance_metrics.append(metric)] *)
Definition append_metric (metric : PerformanceMetric.t) : M unit := λ model_card,
  (Ok tt,
   {| ModelCard.model_details := ModelCard.model_details model_card;
      ModelCard.quantitative_analysis :=
        {| QuantitativeAnalysis.performance_metrics :=
             QuantitativeAnalysis.performance_metrics
               (ModelCard.quantitative_analysis model_card) ++ [metric] |} |}).

(** [for x in xs: body], stopped by the first exception. *)
Fixpoint for_each {A} (xs : list A) (body : A → M unit) : M unit :=
  match xs with
  | [] => mret tt
  | x :: xs' => body x ≫= λ _, for_each xs' body
  end.

Section Annotator.
(** The interpreter's [str], which also renders the fields of an
    f-string. *)
Variable str : PyVal → string.

(** ['_X_'.join(f'{a}_{b}' for a, b in slice_repr)] *)
Definition slice_name_of (slice_repr : list PyVal) : result string :=
  parts ← mapM (λ x, '(a, b) ← unpack2 x; mret (str a +:+ "_" +:+ str b)) slice_repr;
  mret (String.concat "_X_" parts).

Definition parse_metric_value (metric_value : list (string * PyVal)) : result PyVal :=
  if contains_key metric_value "doubleValue"
  then getitem_items metric_value "doubleValue"
  else if contains_key metric_value "boundedValue"
       then getitem_items metric_value "boundedValue" ≫= λ bounded,
            subscript bounded "value"
       else Raise (UnexpectedMetricValue metric_value.*1).

(** The body of the inner loop, over the metrics of one slice. *)
Definition annotate_metric (slice_name : string)
    : string * list (string * PyVal) → M unit :=
  λ '(metric_name, metric_value),
    parsed_value ← lift (parse_metric_value metric_value);
    append_metric {| PerformanceMetric.type := metric_name;
                     PerformanceMetric.value := str parsed_value;
                     PerformanceMetric.slice := slice_name |}.

(** The body of the outer loop, over the slices. *)
Definition annotate_slice
    : PyVal * list (string * list (string * PyVal)) → M unit :=
  λ '(slice_repr, metrics_for_slice),
    slice_name ← lift (match slice_repr with
                       | PyTuple items => slice_name_of items
                       | _ => Raise (SliceNotTuple (type_name slice_repr))
                       end);
    for_each metrics_for_slice (annotate_metric slice_name).

Definition annotate_eval_result_metrics (model_card : ModelCard.t)
    (eval_result : EvalResult.t) : result unit * ModelCard.t :=
  for_each (EvalResult.get_metrics_for_all_slices eval_result) annotate_slice
    model_card.
End Annotator.

(** CPython's [str] on None, integers and text, to run the annotator on
    the evaluation results below, which hold no other value to render. *)
Definition str_plain (v : PyVal) : string :=
  match v with
  | PyNone => "None"
  | PyInt z => DecimalString.NilZero.string_of_int (Z.to_int z)
  | PyStr s => s
  | _ => "<object>"
  end.

(** ** A pipeline to run the queries on *)

(** The store of a small TFX pipeline: an example generator writes the
    examples (artifact 1), a statistics generator reads them and writes
    their statistics (2), a transform reads them and writes transformed
    examples (3), a first trainer run reads the transformed examples and a
    second one the raw examples, both writing the model (4), and an
    evaluator reads the model and the examples and writes the evaluation
    (5). *)
Module Pipeline.
Definition examples_type := {| ArtifactType.id := 10; ArtifactType.name := "Examples" |}.
Definition statistics_type :=
  {| ArtifactType.id := 11; ArtifactType.name := "ExampleStatistics" |}.
Definition model_artifact_type := {| ArtifactType.id := 12; ArtifactType.name := "Model" |}.
Definition evaluation_type :=
  {| ArtifactType.id := 13; ArtifactType.name := "ModelEvaluation" |}.
Definition trainer_execution_type :=
  {| ExecutionType.id := 20;
     ExecutionType.name := "tfx.components.trainer.component.Trainer" |}.

Definition artifact (id type_id : Z) (uri : string) : Artifact.t :=
  {| Artifact.id := id; Artifact.type_id := type_id; Artifact.uri := uri;
     Artifact.properties := ∅; Artifact.custom_properties := ∅ |}.

Definition execution (id type_id : Z) (props : list (string * Value)) : Execution.t :=
  {| Execution.id := id; Execution.type_id := type_id;
     Execution.properties := list_to_map props;
     Execution.custom_properties := ∅ |}.

Definition event (artifact_id execution_id : Z) (type : Event.Type_) : Event.t :=
  {| Event.artifact_id := artifact_id; Event.execution_id := execution_id;
     Event.type := type |}.

Definition examples := artifact 1 10 "/pipeline/CsvExampleGen/examples/1".
Definition statistics := artifact 2 11 "/pipeline/StatisticsGen/statistics/2".
Definition transformed := artifact 3 10 "/pipeline/Transform/transformed_examples/3".
Definition model := artifact 4 12 "/pipeline/Trainer/model/4".
Definition evaluation := artifact 5 13 "/pipeline/Evaluator/evaluation/5".

Definition first_trainer :=
  execution 4 20 [("module_file", StringValue "/code/trainer_v1.py");
                  ("checksum_md5", StringValue "0f3a");
                  ("pipeline_name", StringValue "taxi")].
Definition second_trainer :=
  execution 6 20 [("module_file", StringValue "/code/trainer_v2.py");
                  ("checksum_md5", StringValue "9c41");
                  ("pipeline_name", StringValue "taxi_retrained")].

(** A trainer run that records a floating-point property. *)
Definition tuned_trainer :=
  execution 7 20 [("module_file", StringValue "/code/trainer_v3.py");
                  ("train_steps", IntValue 10000);
                  ("learning_rate", DoubleValue 0.5)].

Definition store : MetadataStore.t :=
  {| artifact_types := [examples_type; statistics_type; model_artifact_type; evaluation_type];
     execution_types := [trainer_execution_type];
     artifacts := [examples; statistics; transformed; model; evaluation];
     executions := [execution 1 21 []; execution 2 22 []; execution 3 23 [];
                    first_trainer; execution 5 24 []; second_trainer];
     events := [event 1 1 Event.OUTPUT;
                event 1 2 Event.INPUT; event 2 2 Event.OUTPUT;
                event 1 3 Event.INPUT; event 3 3 Event.OUTPUT;
                event 3 4 Event.INPUT; event 4 4 Event.OUTPUT;
                event 1 6 Event.INPUT; event 4 6 Event.OUTPUT;
                event 4 5 Event.INPUT; event 1 5 Event.INPUT;
                event 5 5 Event.OUTPUT] |}.

Definition types : PipelineTypes :=
  {| dataset_type := examples_type; stats_type := statistics_type;
     model_type := model_artifact_type; metrics_type := evaluation_type;
     trainer_type := trainer_execution_type |}.

(** The same lineage in a store that registers none of the required type
    names. *)
Definition untyped_store : MetadataStore.t :=
  {| artifact_types := []; execution_types := [];
     artifacts := artifacts store; executions := executions store;
     events := events store |}.

(** A store with nothing in it. *)
Definition empty_store : MetadataStore.t :=
  {| artifact_types := []; execution_types := []; artifacts := [];
     executions := []; events := [] |}.
End Pipeline.

(** ** Evaluation results to annotate *)

Module Evaluation.
Definition bounded (value lower_bound upper_bound : Z) : PyVal :=
  PyDict [("value", PyInt value); ("lower_bound", PyInt lower_bound);
          ("upper_bound", PyInt upper_bound)].

Definition metrics (example_count label_mean : Z)
    : list (string * list (string * PyVal)) :=
  [("example_count", [("doubleValue", PyInt example_count)]);
   ("label/mean", [("boundedValue", bounded label_mean 0 9)])].

(** Three slices of two metrics each: one dimension, two dimensions, and
    the overall slice with none. *)
Definition sliced : EvalResult.t :=
  {| EvalResult.get_metrics_for_all_slices :=
       [(PyTuple [PyTuple [PyStr "weekday"; PyInt 0]], metrics 120 4);
        (PyTuple [PyTuple [PyStr "gender"; PyStr "male"];
                  PyTuple [PyStr "age"; PyInt 10]], metrics 75 3);
        (PyTuple [], metrics 1540 5)] |}.

(** A slice key that is a tuple, of one text and no pair. *)
Definition text_in_tuple : EvalResult.t :=
  {| EvalResult.get_metrics_for_all_slices :=
       [(PyTuple [PyStr "ab"], [("example_count", [("doubleValue", PyInt 7)])])] |}.

(** A slice key that is a tuple of an integer. *)
Definition int_in_tuple : EvalResult.t :=
  {| EvalResult.get_metrics_for_all_slices :=
       [(PyTuple [PyInt 3], [("example_count", [("doubleValue", PyInt 7)])])] |}.

(** A bounded value without its ["value"] field. *)
Definition bounded_without_value : EvalResult.t :=
  {| EvalResult.get_metrics_for_all_slices :=
       [(PyTuple [],
         [("label/mean", [("boundedValue", PyDict [("lower_bound", PyInt 0)])])])] |}.

(** A slice key that is text, after a well-formed slice. *)
Definition text_key : EvalResult.t :=
  {| EvalResult.get_metrics_for_all_slices :=
       [(PyTuple [], metrics 1540 5);
        (PyStr "Overall", metrics 1540 5)] |}.

(** A metric value with neither field, after a well-formed metric. *)
Definition array_metric : EvalResult.t :=
  {| EvalResult.get_metrics_for_all_slices :=
       [(PyTuple [],
         [("example_count", [("doubleValue", PyInt 1540)]);
          ("confusion", [("arrayValue", PyList [PyInt 1; PyInt 2])]);
          ("label/mean", [("boundedValue", bounded 5 0 9)])])] |}.

(** A card that already holds a name and a record. *)
Definition card : ModelCard.t :=
  {| ModelCard.model_details :=
       {| ModelDetails.name := PyStr "/code/trainer_v2.py";
          ModelDetails.version := {| Version.name := PyStr "0f3a" |};
          ModelDetails.references := [ {| Reference.reference := PyStr "taxi" |} ] |};
     ModelCard.quantitative_analysis :=
       {| QuantitativeAnalysis.performance_metrics :=
            [ {| PerformanceMetric.type := "accuracy";
                 PerformanceMetric.value := "1";
                 PerformanceMetric.slice := "" |} ] |} |}.
End Evaluation.

(** ** Payload readers *)

(** [path.endswith('/')] *)
Fixpoint endswith_sep (path : string) : bool :=
  match path with
  | EmptyString => false
  | String c EmptyString => bool_decide (c = "/"%char)
  | String _ rest => endswith_sep rest
  end.

(** One round of the loop of [os.path.join] (CPython's [posixpath]): a
    component that starts with the separator replaces the path so far, and
    a separator is put before any other component unless the path so far is
    empty or ends with one. *)
Definition join_component (path b : string) : string :=
  if String.prefix "/" b then b
  else if bool_decide (path = "") || endswith_sep path then path +:+ b
  else path +:+ "/" +:+ b.

(** [os.path.join(a, *p)] *)
Definition os_path_join (a : string) (p : list string) : string :=
  foldl join_component a p.

(** A call into the environment returns or raises; [E] is the type of what
    the file system and the protocol-buffer runtime raise. *)
Inductive outcome (E A : Type) : Type :=
| Returned (a : A)
| Failed (e : E).
Arguments Returned {E A} a.
Arguments Failed {E A} e.

(** What [read_stats_proto] asks of its environment: whether a path
    exists, the bytes of a file, the first record of a TFRecord file, and
    the parsing of a [DatasetFeatureStatisticsList] (the type [Stats]). *)
Record Environment (E Stats : Type) := {
  os_path_exists : string → bool;
  gfile_read : string → outcome E (list Byte.byte);
  first_tf_record : string → outcome E (list Byte.byte);
  ParseFromString : list Byte.byte → outcome E Stats }.
Arguments os_path_exists {E Stats} _ _.
Arguments gfile_read {E Stats} _ _.
Arguments first_tf_record {E Stats} _ _.
Arguments ParseFromString {E Stats} _ _.

Definition feature_stats_path (stats_artifact_uri split : string) : string :=
  os_path_join stats_artifact_uri [split; "FeatureStats.pb"].

Definition stats_tfrecord_path (stats_artifact_uri split : string) : string :=
  os_path_join stats_artifact_uri [split; "stats_tfrecord"].

(** The function returns its value, or the exception that the environment
    raised, together with the warnings it logged. *)
Definition read_stats_proto {E Stats} (env : Environment E Stats)
    (stats_artifact_uri split : string) : outcome E (option Stats) * list string :=
  let feature_stats_path := feature_stats_path stats_artifact_uri split in
  let stats_tfrecord_path := stats_tfrecord_path stats_artifact_uri split in
  if os_path_exists env feature_stats_path then
    match gfile_read env feature_stats_path with
    | Failed e => (Failed e, [])
    | Returned content =>
        match ParseFromString env content with
        | Failed e => (Failed e, [])
        | Returned stats => (Returned (Some stats), [])
        end
    end
  else if os_path_exists env stats_tfrecord_path then
    match first_tf_record env stats_tfrecord_path with
    | Failed e => (Failed e, [])
    | Returned serialized_stats =>
        match ParseFromString env serialized_stats with
        | Failed e => (Failed e, [])
        | Returned stats => (Returned (Some stats), [])
        end
    end
  else
    (Returned None,
     ["No artifact found at " +:+ stats_tfrecord_path +:+ " or " +:+ feature_stats_path]).

(** ** Files to read statistics from *)

(** The statistics artifact of the pipeline holds the train split as a
    [FeatureStats.pb] file and the eval split as a TFRecord file.  Parsing
    is left to the caller: the statistics are the bytes themselves. *)
Module Files.
Definition train_stats : string :=
  "/pipeline/StatisticsGen/statistics/2/Split-train/FeatureStats.pb".
Definition eval_stats : string :=
  "/pipeline/StatisticsGen/statistics/2/Split-eval/stats_tfrecord".

Definition env : Environment string (list Byte.byte) :=
  {| os_path_exists := λ path, bool_decide (path ∈ [train_stats; eval_stats]);
     gfile_read := λ path,
       if bool_decide (path = train_stats) then Returned [Byte.x0a; Byte.x02]
       else Failed ("cannot read " +:+ path);
     first_tf_record := λ path,
       if bool_decide (path = eval_stats) then Returned [Byte.x0a; Byte.x03]
       else Failed ("no record in " +:+ path);
     ParseFromString := λ content, Returned content |}.
End Files.

(** ** Two more stores *)

Module Variants.
(** The pipeline without its transform: the one trainer run reads the raw
    examples. *)
Definition raw_store : MetadataStore.t :=
  {| artifact_types := artifact_types Pipeline.store;
     execution_types := execution_types Pipeline.store;
     artifacts := artifacts Pipeline.store;
     executions := executions Pipeline.store;
     events := [Pipeline.event 1 1 Event.OUTPUT;
                Pipeline.event 1 2 Event.INPUT; Pipeline.event 2 2 Event.OUTPUT;
                Pipeline.event 1 6 Event.INPUT; Pipeline.event 4 6 Event.OUTPUT] |}.

(** A later artifact type under the name of the Model type. *)
Definition model_v2_type : ArtifactType.t :=
  {| ArtifactType.id := 42; ArtifactType.name := "Model" |}.

(** The pipeline's store after that type was registered. *)
Definition retyped_store : MetadataStore.t :=
  {| artifact_types := artifact_types Pipeline.store ++ [model_v2_type];
     execution_types := execution_types Pipeline.store;
     artifacts := artifacts Pipeline.store;
     executions := executions Pipeline.store;
     events := events Pipeline.store |}.
End Variants.

(** * The vocabulary of the properties *)

(** The two event-type pairs, as the direction tags they stand for. *)
Definition is_output (ty : Event.Type_) : Prop :=
  ty = Event.OUTPUT ∨ ty = Event.DECLARED_OUTPUT.
Definition is_input (ty : Event.Type_) : Prop :=
  ty = Event.INPUT ∨ ty = Event.DECLARED_INPUT.

(** What a two-hop walk returns, [first] and [second] being the event types
    accepted at each hop. *)
Definition walk_spec (store : MetadataStore.t) (artifact_ids : list Z)
    (first second : Event.Type_ → Prop) (filter_type : option ArtifactType.t)
    (found : list Artifact.t) : Prop :=
  ∃ executions_ids artifacts_ids : gset Z,
    (∀ e, e ∈ executions_ids ↔
          ∃ ev, ev ∈ events store ∧ Event.artifact_id ev ∈ artifact_ids ∧
                first (Event.type ev) ∧ Event.execution_id ev = e) ∧
    (∀ a, a ∈ artifacts_ids ↔
          ∃ ev, ev ∈ events store ∧ Event.execution_id ev ∈ executions_ids ∧
                second (Event.type ev) ∧ Event.artifact_id ev = a) ∧
    NoDup (elements executions_ids) ∧ NoDup (elements artifacts_ids) ∧
    found `sublist_of` artifacts store ∧
    (∀ artifact, artifact ∈ found ↔
       artifact ∈ artifacts store ∧ Artifact.id artifact ∈ artifacts_ids ∧
       ∀ t, filter_type = Some t → Artifact.type_id artifact = ArtifactType.id t).

(** What the three entry points do first with their optional registry. *)
Definition resolve_types (store : MetadataStore.t) (given : option PipelineTypes)
    : result PipelineTypes :=
  match given with
  | None => _get_tfx_pipeline_types store
  | Some types => Ok types
  end.

(** A type name that the store does not register. *)
Definition absent_artifact_type (store : MetadataStore.t) (n : string) : Prop :=
  ∀ t, t ∈ artifact_types store → ArtifactType.name t ≠ n.
Definition absent_execution_type (store : MetadataStore.t) (n : string) : Prop :=
  ∀ t, t ∈ execution_types store → ExecutionType.name t ≠ n.

(** The four artifact type names a TFX store must register. *)
Definition required_artifact_type (n : string) : Prop :=
  n = "Examples" ∨ n = "ExampleStatistics" ∨ n = "Model" ∨ n = "ModelEvaluation".

(** The missing-type failure, as the entry points report it for a store:
    when a required artifact type name is absent, the error on artifact
    types that names the absent ones and no other; when none is absent and
    the trainer execution type name is, the error on execution types that
    names it. *)
Definition missing_types_failure (store : MetadataStore.t) (e : Exception) : Prop :=
  ((∃ n, required_artifact_type n ∧ absent_artifact_type store n) ∧
   ∃ missing,
     e = MissingArtifactTypes missing ∧
     ∀ n, n ∈ missing ↔ required_artifact_type n ∧ absent_artifact_type store n) ∨
  ((∀ n, required_artifact_type n → ¬ absent_artifact_type store n) ∧
   absent_execution_type store _TFX_TRAINER_TYPE ∧
   e = MissingExecutionTypes {[ _TFX_TRAINER_TYPE ]}).

(** The artifact a lookup by id finds: the first of the store's artifacts
    with that id, if there is one. *)
Definition found_by_id (store : MetadataStore.t) (model_id : Z)
    (found : option Artifact.t) : Prop :=
  match found with
  | None => ∀ a, a ∈ artifacts store → Artifact.id a ≠ model_id
  | Some model =>
      ∃ before after,
        artifacts store = before ++ model :: after ∧
        Artifact.id model = model_id ∧
        ∀ a, a ∈ before → Artifact.id a ≠ model_id
  end.

(** The store with other registered types, all else the same. *)
Definition with_types (store : MetadataStore.t) (ats : list ArtifactType.t)
    (ets : list ExecutionType.t) : MetadataStore.t :=
  {| artifact_types := ats; execution_types := ets;
     artifacts := artifacts store; executions := executions store;
     events := events store |}.

(** The two errors of the type resolver. *)
Definition is_missing_types_error (e : Exception) : Prop :=
  ∃ missing, e = MissingArtifactTypes missing ∨ e = MissingExecutionTypes missing.

(** The map of a node that the property reader is asked to read. *)
Definition selected_properties {A} `{Node A} (node : A) (is_custom_property : bool)
    : gmap string Value :=
  if is_custom_property then custom_properties node else properties node.

(** [sub] occurs in [s]. *)
Definition Substring (sub s : string) : Prop :=
  ∃ before after, s = before +:+ sub +:+ after.

(** The card with [block] appended to its performance metrics. *)
Definition add_metrics (model_card : ModelCard.t) (block : list PerformanceMetric.t)
    : ModelCard.t :=
  {| ModelCard.model_details := ModelCard.model_details model_card;
     ModelCard.quantitative_analysis :=
       {| QuantitativeAnalysis.performance_metrics :=
            QuantitativeAnalysis.performance_metrics
              (ModelCard.quantitative_analysis model_card) ++ block |} |}.

(** A slice dimension, as the pair it is in a slice key. *)
Definition dimension (d : PyVal * PyVal) : PyVal := PyTuple [d.1; d.2].

(** The value a metric value carries: its direct scalar field, or else the
    ["value"] field of its bounded-value field. *)
Definition reads_as (metric_value : list (string * PyVal)) (v : PyVal) : Prop :=
  lookup_items metric_value "doubleValue" = Some v ∨
  (lookup_items metric_value "doubleValue" = None ∧
   ∃ bounded, lookup_items metric_value "boundedValue" = Some (PyDict bounded) ∧
              lookup_items bounded "value" = Some v).

(** The label of a slice with the dimensions [dims]. *)
Definition slice_label (str : PyVal → string) (dims : list (PyVal * PyVal)) : string :=
  String.concat "_X_" ((λ d, str d.1 +:+ "_" +:+ str d.2) <$> dims).

(** The record of one metric of a slice. *)
Definition records (str : PyVal → string) (label : string)
    (metric : string * list (string * PyVal)) (record : PerformanceMetric.t) : Prop :=
  ∃ v, reads_as metric.2 v ∧
       record = {| PerformanceMetric.type := metric.1;
                   PerformanceMetric.value := str v;
                   PerformanceMetric.slice := label |}.

(** The records of one slice, in the order of its metrics. *)
Definition slice_records (str : PyVal → string)
    (slice : PyVal * list (string * list (string * PyVal)))
    (block : list PerformanceMetric.t) : Prop :=
  ∃ dims, slice.1 = PyTuple (dimension <$> dims) ∧
          Forall2 (records str (slice_label str dims)) slice.2 block.

(** What a computation on the card may do to it: append records. *)
Definition appends_only {A} (m : M A) : Prop :=
  ∀ model_card, ∃ block, (m model_card).2 = add_metrics model_card block.

(** What the execution walk returns, [accepted] being the event types of
    its one hop. *)
Definition execution_walk_spec (store : MetadataStore.t) (artifact_ids : list Z)
    (accepted : Event.Type_ → Prop) (filter_type : option ExecutionType.t)
    (found : list Execution.t) : Prop :=
  found `sublist_of` executions store ∧
  ∀ x, x ∈ found ↔
       x ∈ executions store ∧
       (∃ ev, ev ∈ events store ∧ Event.artifact_id ev ∈ artifact_ids ∧
              accepted (Event.type ev) ∧ Event.execution_id ev = Execution.id x) ∧
       ∀ t, filter_type = Some t → Execution.type_id x = ExecutionType.id t.

(** The event types of the second hop of the artifact walk. *)
Definition second_hop (direction : _Direction) (ty : Event.Type_) : Prop :=
  match direction with
  | ANCESTOR => is_input ty
  | SUCCESSOR => is_output ty
  end.

(** Every event of the store is on an execution that the store holds. *)
Definition executions_recorded (store : MetadataStore.t) : Prop :=
  ∀ ev, ev ∈ events store →
        ∃ x, x ∈ executions store ∧ Execution.id x = Event.execution_id ev.

(** [x] is the last of [xs] with the name [n]. *)
Definition last_named {A} (name : A → string) (xs : list A) (n : string) (x : A)
    : Prop :=
  ∃ before after,
    xs = before ++ x :: after ∧ name x = n ∧ ∀ y, y ∈ after → name y ≠ n.

(** A slice that the annotator goes through without failure: its key is a
    tuple of values that each unpack into two, and each of its metric
    values carries a value. *)
Definition annotates (slice : PyVal * list (string * list (string * PyVal))) : Prop :=
  (∃ items, slice.1 = PyTuple items ∧ ∀ x, x ∈ items → ∃ ab, unpack2 x = Ok ab) ∧
  ∀ metric, metric ∈ slice.2 → ∃ v, reads_as metric.2 v.

(** The performance metrics of a card. *)
Definition metrics_of (model_card : ModelCard.t) : list PerformanceMetric.t :=
  QuantitativeAnalysis.performance_metrics (ModelCard.quantitative_analysis model_card).

(** A computation whose outcome and appended records are the same on
    every card. *)
Definition card_blind {A} (m : M A) : Prop :=
  ∃ r block, ∀ model_card, m model_card = (r, add_metrics model_card block).

(** * Properties *)

(** ** The lineage walker *)

Lemma elem_of_output_types ty :
  ty ∈ [Event.OUTPUT; Event.DECLARED_OUTPUT] ↔ is_output ty.
Proof. unfold is_output. by rewrite elem_of_cons, list_elem_of_singleton. Qed.

Lemma elem_of_input_types ty :
  ty ∈ [Event.INPUT; Event.DECLARED_INPUT] ↔ is_input ty.
Proof. unfold is_input. by rewrite elem_of_cons, list_elem_of_singleton. Qed.

Lemma elem_of_hop_executions_ids store artifact_ids accepted e :
  e ∈ hop_executions_ids store artifact_ids accepted ↔
  ∃ ev, ev ∈ events store ∧ Event.artifact_id ev ∈ artifact_ids ∧
        Event.type ev ∈ accepted ∧ Event.execution_id ev = e.
Proof.
  unfold hop_executions_ids, get_events_by_artifact_ids.
  rewrite elem_of_list_to_set, list_elem_of_fmap. split.
  - intros (ev & -> & Hev). apply list_elem_of_filter in Hev as [Hty Hev].
    apply list_elem_of_filter in Hev as [Hid Hev]. by exists ev.
  - intros (ev & Hev & Hid & Hty & <-). exists ev. split; [done|].
    apply list_elem_of_filter. split; [done|]. by apply list_elem_of_filter.
Qed.

Lemma elem_of_hop_artifacts_ids store executions_ids accepted a :
  a ∈ hop_artifacts_ids store executions_ids accepted ↔
  ∃ ev, ev ∈ events store ∧ Event.execution_id ev ∈ executions_ids ∧
        Event.type ev ∈ accepted ∧ Event.artifact_id ev = a.
Proof.
  unfold hop_artifacts_ids, get_events_by_execution_ids.
  rewrite elem_of_list_to_set, list_elem_of_fmap. split.
  - intros (ev & -> & Hev). apply list_elem_of_filter in Hev as [Hty Hev].
    apply list_elem_of_filter in Hev as [Hid Hev].
    apply elem_of_elements in Hid. by exists ev.
  - intros (ev & Hev & Hid & Hty & <-). exists ev. split; [done|].
    apply list_elem_of_filter. split; [done|]. apply list_elem_of_filter.
    split; [|done]. by apply elem_of_elements.
Qed.

Lemma type_filter_ok_spec (filter_type : option ArtifactType.t) type_id :
  type_filter_ok (ArtifactType.id <$> filter_type) type_id ↔
  ∀ t, filter_type = Some t → type_id = ArtifactType.id t.
Proof.
  destruct filter_type as [t|]; simpl.
  - rewrite bool_decide_spec. split; [by intros -> ? [= <-] | by intros H; apply H].
  - split; [by intros _ ? [=] | done].
Qed.

(** Membership in the walk's result, whatever the direction. *)
Lemma elem_of_one_hop_artifacts store artifact_ids direction filter_type artifact :
  artifact ∈ _get_one_hop_artifacts store artifact_ids direction filter_type ↔
  artifact ∈ artifacts store ∧
  Artifact.id artifact ∈
    hop_artifacts_ids store
      (hop_executions_ids store artifact_ids (te_execution (traverse_events direction)))
      (te_artifact (traverse_events direction)) ∧
  ∀ t, filter_type = Some t → Artifact.type_id artifact = ArtifactType.id t.
Proof.
  unfold _get_one_hop_artifacts, get_artifacts_by_id.
  rewrite list_elem_of_filter, list_elem_of_filter, elem_of_elements, type_filter_ok_spec.
  tauto.
Qed.

Lemma one_hop_artifacts_walk_spec store artifact_ids direction filter_type first second :
  (∀ ty, ty ∈ te_execution (traverse_events direction) ↔ first ty) →
  (∀ ty, ty ∈ te_artifact (traverse_events direction) ↔ second ty) →
  walk_spec store artifact_ids first second filter_type
    (_get_one_hop_artifacts store artifact_ids direction filter_type).
Proof.
  intros Hfirst Hsecond.
  exists (hop_executions_ids store artifact_ids (te_execution (traverse_events direction))).
  exists (hop_artifacts_ids store
            (hop_executions_ids store artifact_ids
               (te_execution (traverse_events direction)))
            (te_artifact (traverse_events direction))).
  split_and!.
  - intros e. rewrite elem_of_hop_executions_ids. by setoid_rewrite Hfirst.
  - intros a. rewrite elem_of_hop_artifacts_ids. by setoid_rewrite Hsecond.
  - apply NoDup_elements.
  - apply NoDup_elements.
  - unfold _get_one_hop_artifacts, get_artifacts_by_id.
    etrans; apply sublist_filter.
  - intros artifact. apply elem_of_one_hop_artifacts.
Qed.

(** C1: in every store, from every list of starting artifact ids and under
    every optional type filter, the one-hop artifact walk towards ANCESTOR
    keeps the execution ids of the OUTPUT/DECLARED_OUTPUT events on the
    starting artifacts and then the artifact ids of the INPUT/DECLARED_INPUT
    events on those executions; towards SUCCESSOR the two event-type pairs
    are exchanged.  The ids kept at each hop form duplicate-free sets, the
    result is drawn from the store's artifacts, and under a filter only
    artifacts whose type id is the filter's id are returned. *)
Theorem one_hop_artifacts_by_direction (store : MetadataStore.t)
    (artifact_ids : list Z) (filter_type : option ArtifactType.t) :
  walk_spec store artifact_ids is_output is_input filter_type
    (_get_one_hop_artifacts store artifact_ids ANCESTOR filter_type) ∧
  walk_spec store artifact_ids is_input is_output filter_type
    (_get_one_hop_artifacts store artifact_ids SUCCESSOR filter_type).
Proof.
  split; apply one_hop_artifacts_walk_spec; simpl;
    auto using elem_of_output_types, elem_of_input_types.
Qed.

(** ** The type resolver *)

Lemma elem_of_expected_artifact_types n :
  n ∈ expected_artifact_types ↔ required_artifact_type n.
Proof.
  unfold expected_artifact_types, required_artifact_type.
  rewrite !elem_of_union, !elem_of_singleton. tauto.
Qed.

Lemma dom_foldl_insert {A} (name : A → string) (xs : list A) (d : gmap string A) k :
  k ∈ dom (foldl (λ d x, <[name x := x]> d) d xs) ↔
  k ∈ dom d ∨ ∃ x, x ∈ xs ∧ name x = k.
Proof.
  revert d. induction xs as [|x xs IH]; intros d; simpl.
  - setoid_rewrite elem_of_nil. naive_solver.
  - rewrite IH, dom_insert_L, elem_of_union, elem_of_singleton.
    setoid_rewrite elem_of_cons. naive_solver.
Qed.

Lemma dom_index_by_name {A} (name : A → string) (xs : list A) k :
  k ∈ dom (index_by_name name xs) ↔ ∃ x, x ∈ xs ∧ name x = k.
Proof.
  unfold index_by_name. rewrite dom_foldl_insert, dom_empty_L.
  rewrite elem_of_empty. tauto.
Qed.

Lemma lookup_foldl_insert {A} (name : A → string) (xs : list A) (d : gmap string A) k v :
  (∀ k v, d !! k = Some v → name v = k) →
  foldl (λ d x, <[name x := x]> d) d xs !! k = Some v →
  name v = k ∧ (v ∈ xs ∨ d !! k = Some v).
Proof.
  revert d. induction xs as [|x xs IH]; intros d Hd; simpl.
  - intros H. split; [by apply Hd | by right].
  - intros H. apply IH in H as [Hn [Hin | Hl]].
    + split; [done|]. left. by right.
    + split; [done|]. destruct (decide (name x = k)) as [<-|Hne].
      * rewrite lookup_insert_eq in Hl. injection Hl as ->. left. by left.
      * rewrite lookup_insert_ne in Hl by done. by right.
    + intros k' v'. destruct (decide (name x = k')) as [<-|Hne].
      * rewrite lookup_insert_eq. by intros [= <-].
      * rewrite lookup_insert_ne by done. apply Hd.
Qed.

Lemma lookup_index_by_name {A} (name : A → string) (xs : list A) k v :
  index_by_name name xs !! k = Some v → name v = k ∧ v ∈ xs.
Proof.
  intros H. apply lookup_foldl_insert in H as [Hn [Hin | Hl]]; [done | | by intros ??].
  by rewrite lookup_empty in Hl.
Qed.

Lemma elem_of_missing_artifact_types store n :
  n ∈ expected_artifact_types ∖
        dom (index_by_name ArtifactType.name (get_artifact_types store)) ↔
  required_artifact_type n ∧ absent_artifact_type store n.
Proof.
  rewrite elem_of_difference, elem_of_expected_artifact_types, dom_index_by_name.
  unfold absent_artifact_type, get_artifact_types. naive_solver.
Qed.

Lemma elem_of_missing_execution_types store n :
  n ∈ expected_execution_types ∖
        dom (index_by_name ExecutionType.name (get_execution_types store)) ↔
  n = _TFX_TRAINER_TYPE ∧ absent_execution_type store n.
Proof.
  unfold expected_execution_types.
  rewrite elem_of_difference, elem_of_singleton, dom_index_by_name.
  unfold absent_execution_type, get_execution_types. naive_solver.
Qed.

(** The resolver's three outcomes: an error naming the absent artifact type
    names, an error naming the absent trainer type, or the registry of the
    five types registered under the required names. *)
Lemma pipeline_types_missing_artifact_types store n :
  required_artifact_type n → absent_artifact_type store n →
  ∃ missing,
    (∀ k, k ∈ missing ↔ required_artifact_type k ∧ absent_artifact_type store k) ∧
    _get_tfx_pipeline_types store = Raise (MissingArtifactTypes missing).
Proof.
  intros Hreq Habs. eexists. split; [apply elem_of_missing_artifact_types|].
  unfold _get_tfx_pipeline_types. rewrite bool_decide_true; [done|].
  intros Hempty. eapply (not_elem_of_empty (C := gset string) n).
  rewrite <- Hempty. by apply elem_of_missing_artifact_types.
Qed.

Lemma pipeline_types_missing_execution_type store :
  (∀ n, required_artifact_type n → ¬ absent_artifact_type store n) →
  absent_execution_type store _TFX_TRAINER_TYPE →
  _get_tfx_pipeline_types store = Raise (MissingExecutionTypes {[ _TFX_TRAINER_TYPE ]}).
Proof.
  intros Hall Habs. unfold _get_tfx_pipeline_types.
  rewrite bool_decide_false.
  2:{ intros Hne. apply Hne. apply set_eq. intros k.
      rewrite elem_of_missing_artifact_types, elem_of_empty. naive_solver. }
  rewrite bool_decide_true.
  2:{ intros Hempty. eapply (not_elem_of_empty (C := gset string) _TFX_TRAINER_TYPE).
      rewrite <- Hempty. by apply elem_of_missing_execution_types. }
  f_equal. f_equal. apply set_eq. intros k.
  rewrite elem_of_missing_execution_types, elem_of_singleton. naive_solver.
Qed.

Lemma pipeline_types_resolved store :
  (∀ n, required_artifact_type n → ¬ absent_artifact_type store n) →
  ¬ absent_execution_type store _TFX_TRAINER_TYPE →
  ∃ types,
    _get_tfx_pipeline_types store = Ok types ∧
    (dataset_type types ∈ artifact_types store ∧
     ArtifactType.name (dataset_type types) = "Examples") ∧
    (stats_type types ∈ artifact_types store ∧
     ArtifactType.name (stats_type types) = "ExampleStatistics") ∧
    (model_type types ∈ artifact_types store ∧
     ArtifactType.name (model_type types) = "Model") ∧
    (metrics_type types ∈ artifact_types store ∧
     ArtifactType.name (metrics_type types) = "ModelEvaluation") ∧
    (trainer_type types ∈ execution_types store ∧
     ExecutionType.name (trainer_type types) = _TFX_TRAINER_TYPE).
Proof.
  intros Hall Hexe. unfold _get_tfx_pipeline_types.
  assert (Hin : ∀ n, required_artifact_type n →
            is_Some (index_by_name ArtifactType.name (get_artifact_types store) !! n)).
  { intros n Hn. apply elem_of_dom, dom_index_by_name.
    destruct (decide (n ∈ dom (index_by_name ArtifactType.name
                                 (get_artifact_types store)))) as [Hd|Hd].
    - by apply dom_index_by_name in Hd.
    - exfalso. apply (Hall n Hn). intros t Ht Hname. apply Hd.
      apply dom_index_by_name. by exists t. }
  assert (Hex : is_Some (index_by_name ExecutionType.name
                           (get_execution_types store) !! _TFX_TRAINER_TYPE)).
  { apply elem_of_dom.
    destruct (decide (_TFX_TRAINER_TYPE ∈ dom (index_by_name ExecutionType.name
                                 (get_execution_types store)))) as [Hd|Hd]; [done|].
    exfalso. apply Hexe. intros t Ht Hname. apply Hd.
    apply dom_index_by_name. by exists t. }
  rewrite bool_decide_false.
  2:{ intros Hne. apply Hne. apply set_eq. intros k.
      rewrite elem_of_missing_artifact_types, elem_of_empty. naive_solver. }
  rewrite bool_decide_false.
  2:{ intros Hne. apply Hne. apply set_eq. intros k.
      rewrite elem_of_missing_execution_types, elem_of_empty. naive_solver. }
  unfold getitem.
  destruct (Hin _TFX_DATASET_TYPE) as [t1 H1]; [unfold required_artifact_type; auto|].
  destruct (Hin _TFX_STATS_TYPE) as [t2 H2]; [unfold required_artifact_type; auto|].
  destruct (Hin _TFX_MODEL_TYPE) as [t3 H3]; [unfold required_artifact_type; auto|].
  destruct (Hin _TFX_METRICS_TYPE) as [t4 H4]; [unfold required_artifact_type; auto 6|].
  destruct Hex as [t5 H5]. rewrite H1, H2, H3, H4, H5. simpl.
  eexists. split; [reflexivity|]. simpl.
  apply lookup_index_by_name in H1, H2, H3, H4, H5.
  unfold get_artifact_types, get_execution_types in *. naive_solver.
Qed.

(** ** The entry points, step by step *)

(** Each entry point resolves the types, validates the model id and only
    then walks the lineage; the three lemmas follow one call through these
    steps. *)
Lemma entry_points_unresolved store model_id given e :
  resolve_types store given = Raise e →
  get_metrics_artifacts_for_model store model_id given = Raise e ∧
  get_stats_artifacts_for_model store model_id given = Raise e ∧
  generate_model_card_for_model store model_id given = Raise e.
Proof.
  unfold resolve_types, get_metrics_artifacts_for_model,
    get_stats_artifacts_for_model, generate_model_card_for_model.
  by intros ->.
Qed.

Lemma entry_points_invalid store model_id given types e :
  resolve_types store given = Ok types →
  _validate_model_id store (model_type types) model_id = Raise e →
  get_metrics_artifacts_for_model store model_id given = Raise e ∧
  get_stats_artifacts_for_model store model_id given = Raise e ∧
  generate_model_card_for_model store model_id given = Raise e.
Proof.
  unfold resolve_types, get_metrics_artifacts_for_model,
    get_stats_artifacts_for_model, generate_model_card_for_model.
  intros -> Hv. simpl. by rewrite Hv.
Qed.

Lemma get_metrics_valid store model_id given types model :
  resolve_types store given = Ok types →
  _validate_model_id store (model_type types) model_id = Ok model →
  get_metrics_artifacts_for_model store model_id given =
  Ok (_get_one_hop_artifacts store [model_id] SUCCESSOR (Some (metrics_type types))).
Proof.
  unfold resolve_types, get_metrics_artifacts_for_model.
  intros -> Hv. simpl. by rewrite Hv.
Qed.

(** The failure is determined by the store: it names what is absent and
    nothing else, so that no two errors fit one store. *)
Lemma missing_types_failure_unique store e1 e2 :
  missing_types_failure store e1 → missing_types_failure store e2 → e1 = e2.
Proof.
  intros [[Hsome1 (m1 & -> & Hm1)] | (Hnone1 & _ & ->)]
         [[Hsome2 (m2 & -> & Hm2)] | (Hnone2 & _ & ->)].
  - f_equal. apply set_eq. intros n. by rewrite Hm1, Hm2.
  - destruct Hsome1 as (n & Hreq & Habs). by destruct (Hnone2 n).
  - destruct Hsome2 as (n & Hreq & Habs). by destruct (Hnone1 n).
  - done.
Qed.

(** C3, amended: in a store that lacks one of the four required artifact
    type names or the trainer execution type name, each entry point called
    without a registry fails with a missing-required-type error, whatever
    the model id (so before validation and traversal).  When a required
    artifact type name is absent, the error is the one on artifact types
    and names exactly the absent required artifact type names; otherwise
    the trainer execution type name is the absent one, and the error is
    the one on execution types and names it. *)
Theorem missing_types_fail_first (store : MetadataStore.t) (model_id : Z) :
  (∃ n, (required_artifact_type n ∧ absent_artifact_type store n) ∨
        (n = _TFX_TRAINER_TYPE ∧ absent_execution_type store n)) →
  ∃ e, missing_types_failure store e ∧
       get_metrics_artifacts_for_model store model_id None = Raise e ∧
       get_stats_artifacts_for_model store model_id None = Raise e ∧
       generate_model_card_for_model store model_id None = Raise e.
Proof.
  intros Habsent.
  destruct (decide (expected_artifact_types ∖
              dom (index_by_name ArtifactType.name (get_artifact_types store)) = ∅))
    as [Hnone|Hsome].
  - assert (Hall : ∀ n, required_artifact_type n → ¬ absent_artifact_type store n).
    { intros n Hreq Habs.
      apply (not_elem_of_empty (C := gset string) n). rewrite <- Hnone.
      by apply elem_of_missing_artifact_types. }
    destruct Habsent as (n & [[Hreq Habs] | [-> Habs]]); [by destruct (Hall n)|].
    eexists. split; [right; by split_and!|].
    apply entry_points_unresolved. by apply pipeline_types_missing_execution_type.
  - apply set_choose_L in Hsome as [n Hn].
    apply elem_of_missing_artifact_types in Hn as [Hreq Habs].
    destruct (pipeline_types_missing_artifact_types store n Hreq Habs)
      as (missing & Hmissing & Hraise).
    exists (MissingArtifactTypes missing). split.
    { left. split; [by exists n | by exists missing]. }
    by apply entry_points_unresolved.
Qed.

Lemma missing_types_fail_first_witness :
  ∃ e, missing_types_failure Pipeline.empty_store e ∧
       get_metrics_artifacts_for_model Pipeline.empty_store 4 None = Raise e ∧
       get_stats_artifacts_for_model Pipeline.empty_store 4 None = Raise e ∧
       generate_model_card_for_model Pipeline.empty_store 4 None = Raise e.
Proof.
  apply (missing_types_fail_first Pipeline.empty_store 4).
  exists "Model". left. split.
  - right. right. left. reflexivity.
  - intros t Ht. simpl in Ht. by apply elem_of_nil in Ht.
Defined.

(** C3, as first stated, fails on the empty store: the trainer execution
    type name is absent there, and the error of each entry point names the
    four artifact type names only. *)
Lemma missing_types_not_all_named :
  absent_execution_type Pipeline.empty_store _TFX_TRAINER_TYPE ∧
  (_TFX_TRAINER_TYPE ∉ expected_artifact_types) ∧
  get_metrics_artifacts_for_model Pipeline.empty_store 4 None =
    Raise (MissingArtifactTypes expected_artifact_types) ∧
  get_stats_artifacts_for_model Pipeline.empty_store 4 None =
    Raise (MissingArtifactTypes expected_artifact_types) ∧
  generate_model_card_for_model Pipeline.empty_store 4 None =
    Raise (MissingArtifactTypes expected_artifact_types).
Proof.
  split_and!.
  - intros t Ht. simpl in Ht. by apply elem_of_nil in Ht.
  - rewrite elem_of_expected_artifact_types. unfold required_artifact_type.
    intros [H|[H|[H|H]]]; discriminate H.
  - vm_compute. reflexivity.
  - vm_compute. reflexivity.
  - vm_compute. reflexivity.
Qed.

(** The queries on the pipeline, as the unit tests run them: the metrics
    and the statistics of the model, an id that no artifact has, and the id
    of the examples. *)
Example pipeline_metrics :
  get_metrics_artifacts_for_model Pipeline.store 4 None = Ok [Pipeline.evaluation].
Proof. vm_compute. reflexivity. Qed.

Example pipeline_stats :
  get_stats_artifacts_for_model Pipeline.store 4 None = Ok [Pipeline.statistics].
Proof. vm_compute. reflexivity. Qed.

Example pipeline_model_not_found :
  get_metrics_artifacts_for_model Pipeline.store 0 None = Raise (ModelIdNotFound 0).
Proof. vm_compute. reflexivity. Qed.

Example pipeline_invalid_model :
  generate_model_card_for_model Pipeline.store 1 None =
  Raise (NotAnInstanceOfModel Pipeline.examples).
Proof. vm_compute. reflexivity. Qed.

(** ** The model validator *)

Lemma filter_by_id_none (l : list Artifact.t) model_id :
  (∀ a, a ∈ l → Artifact.id a ≠ model_id) →
  filter (λ a, Artifact.id a ∈ [model_id]) l = [].
Proof.
  induction l as [|x l IH]; intros Hl; [done|].
  rewrite filter_cons_False.
  - apply IH. intros a Ha. apply Hl. by right.
  - rewrite list_elem_of_singleton. apply Hl. by left.
Qed.

Lemma get_artifacts_by_id_found store model_id model :
  found_by_id store model_id (Some model) →
  ∃ others, get_artifacts_by_id store [model_id] = model :: others.
Proof.
  intros (before & after & Hstore & Hid & Hbefore).
  unfold get_artifacts_by_id. rewrite Hstore, filter_app.
  rewrite filter_by_id_none by done. simpl.
  rewrite filter_cons_True by (by apply list_elem_of_singleton). eauto.
Qed.

Lemma get_artifacts_by_id_not_found store model_id :
  found_by_id store model_id None → get_artifacts_by_id store [model_id] = [].
Proof. intros H. by apply filter_by_id_none. Qed.

(** C5: validation of a candidate model id fails with the not-found error
    naming the id when the store has no artifact with that id, fails with
    the not-a-Model error when the artifact found has a type id other than
    the Model type's, and returns the artifact found otherwise; each entry
    point keyed by a model id fails with the validation's error. *)
Theorem model_id_validation (store : MetadataStore.t) (mtype : ArtifactType.t)
    (model_id : Z) :
  (found_by_id store model_id None →
   _validate_model_id store mtype model_id = Raise (ModelIdNotFound model_id)) ∧
  (∀ model, found_by_id store model_id (Some model) →
     Artifact.type_id model ≠ ArtifactType.id mtype →
     _validate_model_id store mtype model_id = Raise (NotAnInstanceOfModel model)) ∧
  (∀ model, found_by_id store model_id (Some model) →
     Artifact.type_id model = ArtifactType.id mtype →
     _validate_model_id store mtype model_id = Ok model) ∧
  (∀ given types e,
     resolve_types store given = Ok types →
     _validate_model_id store (model_type types) model_id = Raise e →
     get_metrics_artifacts_for_model store model_id given = Raise e ∧
     get_stats_artifacts_for_model store model_id given = Raise e ∧
     generate_model_card_for_model store model_id given = Raise e).
Proof.
  split_and!.
  - intros H. unfold _validate_model_id.
    by rewrite get_artifacts_by_id_not_found.
  - intros model H Hty. unfold _validate_model_id.
    destruct (get_artifacts_by_id_found _ _ _ H) as [others ->].
    by rewrite bool_decide_true.
  - intros model H Hty. unfold _validate_model_id.
    destruct (get_artifacts_by_id_found _ _ _ H) as [others ->].
    rewrite bool_decide_false; [done|]. by intros Hne.
  - intros given types e. apply entry_points_invalid.
Qed.

Lemma model_id_validation_witness :
  _validate_model_id Pipeline.store Pipeline.model_artifact_type 9 = Raise (ModelIdNotFound 9) ∧
  _validate_model_id Pipeline.store Pipeline.model_artifact_type 1 =
    Raise (NotAnInstanceOfModel Pipeline.examples) ∧
  _validate_model_id Pipeline.store Pipeline.model_artifact_type 4 = Ok Pipeline.model ∧
  get_stats_artifacts_for_model Pipeline.store 1 None =
    Raise (NotAnInstanceOfModel Pipeline.examples).
Proof.
  split_and!.
  - apply (model_id_validation Pipeline.store Pipeline.model_artifact_type 9).
    intros a Ha. simpl in Ha. rewrite !elem_of_cons, elem_of_nil in Ha.
    intros Hid. destruct Ha as [->|[->|[->|[->|[->|[]]]]]]; discriminate Hid.
  - apply (model_id_validation Pipeline.store Pipeline.model_artifact_type 1).
    + exists [], [Pipeline.statistics; Pipeline.transformed; Pipeline.model;
                  Pipeline.evaluation].
      split_and!; [reflexivity | reflexivity |].
      intros a Ha. by apply elem_of_nil in Ha.
    + simpl. lia.
  - apply (model_id_validation Pipeline.store Pipeline.model_artifact_type 4).
    + exists [Pipeline.examples; Pipeline.statistics; Pipeline.transformed],
        [Pipeline.evaluation].
      split_and!; [reflexivity | reflexivity |].
      intros a Ha. rewrite !elem_of_cons, elem_of_nil in Ha. intros Hid.
      destruct Ha as [->|[->|[->|[]]]]; discriminate Hid.
    + reflexivity.
  - destruct (model_id_validation Pipeline.store Pipeline.model_artifact_type 1)
      as (_ & _ & _ & Hqueries).
    apply (Hqueries None Pipeline.types); vm_compute; reflexivity.
Defined.

(** ** A registry supplied by the caller *)

Lemma validate_model_id_error store mtype model_id e :
  _validate_model_id store mtype model_id = Raise e → ¬ is_missing_types_error e.
Proof.
  unfold _validate_model_id.
  destruct (get_artifacts_by_id store [model_id]) as [|model ?].
  - intros [= <-] (? & [|]); discriminate.
  - case_bool_decide; [|done]. intros [= <-] (? & [|]); discriminate.
Qed.

Lemma get_stats_valid store model_id given types model :
  resolve_types store given = Ok types →
  _validate_model_id store (model_type types) model_id = Ok model →
  let trainer_examples :=
    _get_one_hop_artifacts store [model_id] ANCESTOR (Some (dataset_type types)) in
  let split := split_trainer_examples trainer_examples in
  get_stats_artifacts_for_model store model_id given =
  Ok (_get_one_hop_artifacts store
        (elements (split.1 ∪
                   list_to_set (Artifact.id <$>
                                  _get_one_hop_artifacts store (elements split.2) ANCESTOR
                                    (Some (dataset_type types)))))
        SUCCESSOR (Some (stats_type types))).
Proof.
  unfold resolve_types, get_stats_artifacts_for_model.
  intros -> Hv. simpl. rewrite Hv. simpl.
  by destruct (split_trainer_examples _) as [dataset_ids transformed_example_ids].
Qed.

Lemma getitem_list_first {A} (x : A) (l : list A) : getitem_list (x :: l) 0 = Ok x.
Proof.
  unfold getitem_list. cbn [length].
  replace (0 <? Z.of_nat (S (length l))) with true by (symmetry; apply Z.ltb_lt; lia).
  reflexivity.
Qed.

Lemma getitem_list_last {A} (l : list A) (x : A) :
  last l = Some x → getitem_list l (-1) = Ok x.
Proof.
  intros Hlast. rewrite last_lookup in Hlast.
  destruct l as [|y l]; [done|]. unfold getitem_list.
  cbn [length Nat.pred] in *.
  replace (-1 <? 0) with true by reflexivity.
  replace (0 <=? -1 + Z.of_nat (S (length l))) with true
    by (symmetry; apply Z.leb_le; lia).
  replace (-1 + Z.of_nat (S (length l)) <? Z.of_nat (S (length l))) with true
    by (symmetry; apply Z.ltb_lt; lia).
  replace (Z.to_nat (-1 + Z.of_nat (S (length l)))) with (length l) by lia.
  simpl. by rewrite Hlast.
Qed.

(** The card that generation returns once the model id is validated. *)
Lemma generate_model_card_valid store model_id given types model :
  resolve_types store given = Ok types →
  _validate_model_id store (model_type types) model_id = Ok model →
  let trainers :=
    _get_one_hop_executions store [model_id] ANCESTOR (Some (trainer_type types)) in
  generate_model_card_for_model store model_id given =
  Ok match head trainers, last trainers with
     | Some first_trainer, Some last_trainer =>
         {| ModelCard.model_details :=
              {| ModelDetails.name := _property_value last_trainer "module_file" false;
                 ModelDetails.version :=
                   {| Version.name := _property_value first_trainer "checksum_md5" false |};
                 ModelDetails.references :=
                   [ {| Reference.reference :=
                          _property_value first_trainer "pipeline_name" false |} ] |};
            ModelCard.quantitative_analysis :=
              ModelCard.quantitative_analysis ModelCard.new |}
     | _, _ => ModelCard.new
     end.
Proof.
  unfold resolve_types, generate_model_card_for_model.
  intros -> Hv. simpl. rewrite Hv. simpl.
  destruct (_get_one_hop_executions _ _ _ _) as [|t trainers] eqn:Htrainers; [done|].
  destruct (last (t :: trainers)) as [last_trainer|] eqn:Hlast.
  - rewrite (getitem_list_last _ _ Hlast), getitem_list_first. reflexivity.
  - by rewrite last_cons in Hlast; destruct (last trainers).
Qed.

(** C9: with a registry supplied, the entry points do not look at the
    types the store registers: their results are the same whatever types
    are registered, a missing-required-type failure can only come from a
    call without a registry, and every call on a model id that validates
    against the registry returns a result, also in a store that registers
    none of the required type names. *)
Theorem supplied_registry_skips_type_check (store : MetadataStore.t) (model_id : Z)
    (types : PipelineTypes) :
  (∀ ats ets,
     get_metrics_artifacts_for_model (with_types store ats ets) model_id (Some types) =
       get_metrics_artifacts_for_model store model_id (Some types) ∧
     get_stats_artifacts_for_model (with_types store ats ets) model_id (Some types) =
       get_stats_artifacts_for_model store model_id (Some types) ∧
     generate_model_card_for_model (with_types store ats ets) model_id (Some types) =
       generate_model_card_for_model store model_id (Some types)) ∧
  (∀ given e,
     is_missing_types_error e →
     get_metrics_artifacts_for_model store model_id given = Raise e ∨
     get_stats_artifacts_for_model store model_id given = Raise e ∨
     generate_model_card_for_model store model_id given = Raise e →
     given = None) ∧
  (∀ model,
     _validate_model_id store (model_type types) model_id = Ok model →
     (∃ metrics, get_metrics_artifacts_for_model store model_id (Some types) = Ok metrics) ∧
     (∃ stats, get_stats_artifacts_for_model store model_id (Some types) = Ok stats) ∧
     (∃ card, generate_model_card_for_model store model_id (Some types) = Ok card)).
Proof.
  split_and!.
  - intros ats ets. split_and!; reflexivity.
  - intros [given|] e Hmiss Hraise; [exfalso|done].
    destruct (_validate_model_id store (model_type given) model_id) as [model|e'] eqn:Hv.
    + rewrite (get_metrics_valid store model_id (Some given) given model eq_refl Hv),
        (get_stats_valid store model_id (Some given) given model eq_refl Hv),
        (generate_model_card_valid store model_id (Some given) given model eq_refl Hv)
        in Hraise.
      by destruct Hraise as [H|[H|H]].
    + destruct (entry_points_invalid store model_id (Some given) given e' eq_refl Hv)
        as (H1 & H2 & H3).
      rewrite H1, H2, H3 in Hraise.
      assert (e' = e) as -> by (destruct Hraise as [H|[H|H]]; by injection H).
      by apply validate_model_id_error in Hv.
  - intros model Hv. split_and!; eexists.
    + by apply (get_metrics_valid store model_id (Some types) types model).
    + by apply (get_stats_valid store model_id (Some types) types model).
    + by apply (generate_model_card_valid store model_id (Some types) types model).
Qed.

(** The pipeline's store without any registered type serves the three
    queries on the model (artifact 4) under the supplied registry. *)
Lemma supplied_registry_skips_type_check_witness :
  (∃ metrics, get_metrics_artifacts_for_model Pipeline.untyped_store 4
                (Some Pipeline.types) = Ok metrics) ∧
  (∃ stats, get_stats_artifacts_for_model Pipeline.untyped_store 4
              (Some Pipeline.types) = Ok stats) ∧
  (∃ card, generate_model_card_for_model Pipeline.untyped_store 4
             (Some Pipeline.types) = Ok card).
Proof.
  destruct (supplied_registry_skips_type_check Pipeline.untyped_store 4 Pipeline.types)
    as (_ & _ & Hserved).
  apply (Hserved Pipeline.model). vm_compute. reflexivity.
Defined.

(** ** Model-card generation *)

(** C4: on a validated model id, model-card generation returns a card.
    When the one-hop ANCESTOR trainer executions of the model are not
    empty, the card's model name is the ["module_file"] property of the
    last of them, its version label the ["checksum_md5"] property of the
    first, and its references the single entry holding the first one's
    ["pipeline_name"] property; when there is none, the card is the fresh
    one and no error is raised. *)
Theorem model_card_from_trainers (store : MetadataStore.t) (model_id : Z)
    (given : option PipelineTypes) (types : PipelineTypes) (model : Artifact.t) :
  resolve_types store given = Ok types →
  _validate_model_id store (model_type types) model_id = Ok model →
  let trainers :=
    _get_one_hop_executions store [model_id] ANCESTOR (Some (trainer_type types)) in
  ∃ card,
    generate_model_card_for_model store model_id given = Ok card ∧
    (trainers = [] → card = ModelCard.new) ∧
    (∀ first_trainer last_trainer,
       head trainers = Some first_trainer → last trainers = Some last_trainer →
       ModelDetails.name (ModelCard.model_details card) =
         _property_value last_trainer "module_file" false ∧
       Version.name (ModelDetails.version (ModelCard.model_details card)) =
         _property_value first_trainer "checksum_md5" false ∧
       ModelDetails.references (ModelCard.model_details card) =
         [ {| Reference.reference :=
                _property_value first_trainer "pipeline_name" false |} ]).
Proof.
  intros Hres Hv trainers. eexists. split.
  - by apply (generate_model_card_valid store model_id given types model).
  - fold trainers. split.
    + by intros ->.
    + by intros first_trainer last_trainer -> ->.
Qed.

(** The model of the pipeline has two trainer runs: the name comes from
    the second, the version label and the reference from the first. *)
Lemma model_card_from_trainers_witness :
  ∃ card,
    generate_model_card_for_model Pipeline.store 4 None = Ok card ∧
    ModelDetails.name (ModelCard.model_details card) = PyStr "/code/trainer_v2.py" ∧
    Version.name (ModelDetails.version (ModelCard.model_details card)) = PyStr "0f3a" ∧
    ModelDetails.references (ModelCard.model_details card) =
      [ {| Reference.reference := PyStr "taxi" |} ].
Proof.
  destruct (model_card_from_trainers Pipeline.store 4 None Pipeline.types Pipeline.model)
    as (card & Hcard & _ & Hfields).
  - vm_compute. reflexivity.
  - vm_compute. reflexivity.
  - exists card. split; [exact Hcard|].
    apply (Hfields Pipeline.first_trainer Pipeline.second_trainer).
    + vm_compute. reflexivity.
    + vm_compute. reflexivity.
Defined.

(** ** The property reader *)

Section PropertyReader.
Context {A : Type} `{Node A}.

(** Absent names, integers and text are read as stated. *)
Lemma property_value_read (node : A) (name : string) (is_custom_property : bool) :
  (selected_properties node is_custom_property !! name = None →
   _property_value node name is_custom_property = PyNone) ∧
  (∀ i, selected_properties node is_custom_property !! name = Some (IntValue i) →
        _property_value node name is_custom_property = PyInt i) ∧
  (∀ s, selected_properties node is_custom_property !! name = Some (StringValue s) →
        _property_value node name is_custom_property = PyStr s).
Proof.
  unfold _property_value, selected_properties.
  split_and!; [intros -> | intros i -> | intros s ->]; reflexivity.
Qed.

(** C8, where the code departs from it: a property whose populated
    variant is the double one is not read as its double value.  The
    reader compares the variant's name with ["float_value"], a name no
    variant has, and falls through to the text field, which is empty. *)
Theorem property_value_of_double (node : A) (name : string)
    (is_custom_property : bool) (d : float) :
  selected_properties node is_custom_property !! name = Some (DoubleValue d) →
  _property_value node name is_custom_property = PyStr "".
Proof.
  unfold _property_value, selected_properties. intros ->. reflexivity.
Qed.
End PropertyReader.

Lemma property_value_of_double_witness :
  Execution.properties Pipeline.tuned_trainer !! "learning_rate" =
    Some (DoubleValue 0.5) ∧
  _property_value Pipeline.tuned_trainer "learning_rate" false = PyStr "".
Proof.
  split; [vm_compute; reflexivity|].
  apply (property_value_of_double Pipeline.tuned_trainer "learning_rate" false 0.5).
  vm_compute. reflexivity.
Defined.

(** ** The statistics-for-model query *)

Lemma prefix_cons a b sub s :
  String.prefix (String a sub) (String b s) =
  if Ascii.ascii_dec a b then String.prefix sub s else false.
Proof. reflexivity. Qed.

Lemma append_cons a s t : String a s +:+ t = String a (s +:+ t).
Proof. reflexivity. Qed.

Lemma prefix_true_iff (sub s : string) :
  String.prefix sub s = true ↔ ∃ after, s = sub +:+ after.
Proof.
  revert s. induction sub as [|a sub IH]; intros s.
  - split; [intros _; by exists s | by destruct s].
  - destruct s as [|b s].
    + split; [done | by intros [after [=]]].
    + rewrite prefix_cons. setoid_rewrite append_cons.
      destruct (Ascii.ascii_dec a b) as [<-|Hne].
      * rewrite IH. split; intros [after Hs]; exists after; congruence.
      * split; [done | intros [after [= ? _]]; by destruct Hne].
Qed.

Lemma str_find_from_unfold (s sub : string) (start : Z) :
  str_find_from s sub start =
  if String.prefix sub s then start
  else match s with
       | EmptyString => -1
       | String _ s' => str_find_from s' sub (start + 1)
       end.
Proof. by destruct s. Qed.

Lemma str_find_from_found (s sub : string) (start : Z) :
  0 ≤ start → str_find_from s sub start ≠ -1 ↔ Substring sub s.
Proof.
  revert start. induction s as [|c s IH]; intros start Hstart;
    rewrite str_find_from_unfold;
    destruct (String.prefix sub _) eqn:Hp.
  - split; [intros _ | lia]. apply prefix_true_iff in Hp as [after Hs].
    by exists "", after.
  - split; [done|]. intros (before & after & Hs).
    destruct before; [|done].
    assert (String.prefix sub "" = true) by (apply prefix_true_iff; eauto).
    congruence.
  - split; [intros _ | lia]. apply prefix_true_iff in Hp as [after Hs].
    by exists "", after.
  - rewrite IH by lia. split.
    + intros (before & after & ->). by exists (String c before), after.
    + intros (before & after & Hs). destruct before as [|c' before].
      * assert (String.prefix sub (String c s) = true)
          by (apply prefix_true_iff; eauto).
        congruence.
      * rewrite append_cons in Hs. injection Hs as _ ->. by exists before, after.
Qed.

Lemma str_find_found (s sub : string) : str_find s sub ≠ -1 ↔ Substring sub s.
Proof. by apply str_find_from_found. Qed.

(** The loop over the trainer's examples sorts their ids by the marker in
    the URI. *)
Lemma split_trainer_examples_spec (trainer_examples : list Artifact.t) :
  (∀ i, i ∈ (split_trainer_examples trainer_examples).1 ↔
        ∃ a, a ∈ trainer_examples ∧ Artifact.id a = i ∧
             ¬ Substring "/Transform/" (Artifact.uri a)) ∧
  (∀ i, i ∈ (split_trainer_examples trainer_examples).2 ↔
        ∃ a, a ∈ trainer_examples ∧ Artifact.id a = i ∧
             Substring "/Transform/" (Artifact.uri a)).
Proof.
  unfold split_trainer_examples.
  match goal with |- context [foldl ?f _ _] => set (step := f) end.
  assert (Hgen : ∀ l acc,
    (∀ i, i ∈ (foldl step acc l).1 ↔
          i ∈ acc.1 ∨ ∃ a, a ∈ l ∧ Artifact.id a = i ∧
                           ¬ Substring "/Transform/" (Artifact.uri a)) ∧
    (∀ i, i ∈ (foldl step acc l).2 ↔
          i ∈ acc.2 ∨ ∃ a, a ∈ l ∧ Artifact.id a = i ∧
                           Substring "/Transform/" (Artifact.uri a))).
  { induction l as [|x l IH]; intros [dataset_ids transformed_example_ids].
    - simpl. setoid_rewrite elem_of_nil. naive_solver.
    - cbn [foldl]. destruct (IH (step (dataset_ids, transformed_example_ids) x))
        as [IH1 IH2].
      assert (Hmark : str_find (Artifact.uri x) "/Transform/" ≠ -1 ↔
                      Substring "/Transform/" (Artifact.uri x))
        by apply str_find_found.
      split; intros i; [rewrite IH1 | rewrite IH2]; clear IH IH1 IH2;
        setoid_rewrite elem_of_cons; unfold step; case_bool_decide as Hfind;
        simpl; rewrite ?elem_of_union, ?elem_of_singleton; naive_solver. }
  destruct (Hgen trainer_examples (∅, ∅)) as [H1 H2].
  split; intros i; [rewrite H1 | rewrite H2]; simpl; rewrite elem_of_empty; tauto.
Qed.

(** A walk from several artifacts finds what the walks from each of them
    find. *)
Lemma elem_of_one_hop_artifacts_from store artifact_ids direction filter_type artifact :
  artifact ∈ _get_one_hop_artifacts store artifact_ids direction filter_type ↔
  ∃ i, i ∈ artifact_ids ∧
       artifact ∈ _get_one_hop_artifacts store [i] direction filter_type.
Proof.
  setoid_rewrite elem_of_one_hop_artifacts.
  setoid_rewrite elem_of_hop_artifacts_ids.
  setoid_rewrite elem_of_hop_executions_ids.
  setoid_rewrite list_elem_of_singleton.
  split.
  - intros (Ha & (ev2 & Hev2 & (ev1 & Hev1 & Hid & Hty1 & Hex) & Hty2 & Haid) & Hft).
    exists (Event.artifact_id ev1). split; [done|]. split_and!; [done| |done].
    exists ev2. split_and!; try done. by exists ev1.
  - intros (i & Hi & Ha & (ev2 & Hev2 & (ev1 & Hev1 & <- & Hty1 & Hex) & Hty2 & Haid) & Hft).
    split_and!; [done| |done].
    exists ev2. split_and!; try done. by exists ev1.
Qed.

(** C2: for a valid model id, the statistics-for-model query sorts the
    model's one-hop ANCESTOR dataset artifacts by whether their URI contains
    ["/Transform/"].  Those without the marker give their own ids; each one
    with the marker gives the ids of the dataset artifacts one further
    ANCESTOR hop away from it; the result is the SUCCESSOR hop, filtered to
    the Statistics type, from the union of the two id sets. *)
Theorem stats_for_model_partition (store : MetadataStore.t) (model_id : Z)
    (given : option PipelineTypes) (types : PipelineTypes) (model : Artifact.t) :
  resolve_types store given = Ok types →
  _validate_model_id store (model_type types) model_id = Ok model →
  let dataset := Some (dataset_type types) in
  let trainer_examples := _get_one_hop_artifacts store [model_id] ANCESTOR dataset in
  ∃ plain transformed originals : gset Z,
    (∀ i, i ∈ plain ↔
          ∃ a, a ∈ trainer_examples ∧ Artifact.id a = i ∧
               ¬ Substring "/Transform/" (Artifact.uri a)) ∧
    (∀ i, i ∈ transformed ↔
          ∃ a, a ∈ trainer_examples ∧ Artifact.id a = i ∧
               Substring "/Transform/" (Artifact.uri a)) ∧
    (∀ i, i ∈ originals ↔
          ∃ t d, t ∈ transformed ∧
                 d ∈ _get_one_hop_artifacts store [t] ANCESTOR dataset ∧
                 Artifact.id d = i) ∧
    get_stats_artifacts_for_model store model_id given =
      Ok (_get_one_hop_artifacts store (elements (plain ∪ originals)) SUCCESSOR
            (Some (stats_type types))).
Proof.
  intros Hres Hv dataset trainer_examples.
  destruct (split_trainer_examples_spec trainer_examples) as [Hplain Htransformed].
  exists (split_trainer_examples trainer_examples).1,
         (split_trainer_examples trainer_examples).2.
  eexists. split_and!; [exact Hplain | exact Htransformed | |].
  2: by apply (get_stats_valid store model_id given types model).
  intros i. rewrite elem_of_list_to_set, list_elem_of_fmap. split.
  - intros (d & -> & Hd). apply elem_of_one_hop_artifacts_from in Hd as (t & Ht & Hd).
    apply elem_of_elements in Ht. by exists t, d.
  - intros (t & d & Ht & Hd & <-). exists d. split; [done|].
    apply elem_of_one_hop_artifacts_from. exists t. by rewrite elem_of_elements.
Qed.

(** In the pipeline the model was trained on the raw examples (1) and on
    the transformed examples (3), which lead back to the raw ones: the
    statistics found are those of the raw examples (2). *)
Lemma stats_for_model_partition_witness :
  ∃ plain transformed originals : gset Z,
    (∀ i, i ∈ transformed ↔
          ∃ a, a ∈ _get_one_hop_artifacts Pipeline.store [4] ANCESTOR
                     (Some Pipeline.examples_type) ∧
               Artifact.id a = i ∧ Substring "/Transform/" (Artifact.uri a)) ∧
    get_stats_artifacts_for_model Pipeline.store 4 None =
      Ok (_get_one_hop_artifacts Pipeline.store (elements (plain ∪ originals))
            SUCCESSOR (Some Pipeline.statistics_type)) ∧
    get_stats_artifacts_for_model Pipeline.store 4 None = Ok [Pipeline.statistics].
Proof.
  destruct (stats_for_model_partition Pipeline.store 4 None Pipeline.types Pipeline.model)
    as (plain & transformed & originals & _ & Htransformed & _ & Hstats).
  - vm_compute. reflexivity.
  - vm_compute. reflexivity.
  - exists plain, transformed, originals. split_and!.
    + exact Htransformed.
    + exact Hstats.
    + vm_compute. reflexivity.
Defined.

(** ** The metric annotator *)

Lemma add_metrics_nil model_card : add_metrics model_card [] = model_card.
Proof.
  destruct model_card as [details [metrics]]. unfold add_metrics. simpl.
  by rewrite app_nil_r.
Qed.

Lemma add_metrics_app model_card block1 block2 :
  add_metrics (add_metrics model_card block1) block2 =
  add_metrics model_card (block1 ++ block2).
Proof. unfold add_metrics. simpl. by rewrite app_assoc. Qed.

Lemma for_each_cons {A} (x : A) (xs : list A) (body : A → M unit) model_card :
  for_each (x :: xs) body model_card =
  match body x model_card with
  | (Ok _, model_card') => for_each xs body model_card'
  | (Raise e, model_card') => (Raise e, model_card')
  end.
Proof. reflexivity. Qed.

Lemma for_each_app {A} (xs ys : list A) (body : A → M unit) model_card :
  for_each (xs ++ ys) body model_card =
  match for_each xs body model_card with
  | (Ok _, model_card') => for_each ys body model_card'
  | (Raise e, model_card') => (Raise e, model_card')
  end.
Proof.
  revert model_card. induction xs as [|x xs IH]; intros model_card; [done|].
  rewrite <- app_comm_cons, !for_each_cons.
  destruct (body x model_card) as [[[]|e] model_card']; [apply IH | done].
Qed.

Lemma contains_key_lookup {V} (d : list (string * V)) key :
  contains_key d key = true ↔ is_Some (lookup_items d key).
Proof.
  unfold contains_key. rewrite bool_decide_eq_true.
  induction d as [|[k v] d IH]; simpl.
  - rewrite elem_of_nil. split; [done | by intros [? ?]].
  - rewrite elem_of_cons, IH. case_bool_decide; naive_solver.
Qed.

Lemma contains_key_false {V} (d : list (string * V)) key :
  contains_key d key = false ↔ lookup_items d key = None.
Proof.
  rewrite <- not_true_iff_false, contains_key_lookup, <- eq_None_not_Some. done.
Qed.

Section AnnotatorProperties.
Variable str : PyVal → string.

Lemma parse_metric_value_reads metric_value v :
  reads_as metric_value v → parse_metric_value metric_value = Ok v.
Proof.
  unfold parse_metric_value, getitem_items.
  intros [Hd | (Hd & bounded & Hb & Hv)].
  - rewrite (proj2 (contains_key_lookup _ _)) by eauto. by rewrite Hd.
  - rewrite (proj2 (contains_key_false _ _) Hd).
    rewrite (proj2 (contains_key_lookup _ _)) by eauto.
    rewrite Hb. simpl. unfold getitem_items. by rewrite Hv.
Qed.

Lemma parse_metric_value_neither metric_value :
  "doubleValue" ∉ metric_value.*1 →
  "boundedValue" ∉ metric_value.*1 →
  parse_metric_value metric_value = Raise (UnexpectedMetricValue metric_value.*1).
Proof.
  intros Hd Hb. unfold parse_metric_value, contains_key.
  by rewrite !bool_decide_false.
Qed.

Lemma slice_name_of_dimensions dims :
  slice_name_of str (dimension <$> dims) = Ok (slice_label str dims).
Proof.
  unfold slice_name_of, slice_label.
  assert (Hparts :
    mapM (λ x, '(a, b) ← unpack2 x; mret (str a +:+ "_" +:+ str b)) (dimension <$> dims)
    = Ok ((λ d, str d.1 +:+ "_" +:+ str d.2) <$> dims)).
  { induction dims as [|[a b] dims IH]; [done|].
    rewrite !fmap_cons. cbn [mapM]. rewrite IH. reflexivity. }
  by rewrite Hparts.
Qed.

Lemma annotate_metrics_ok label metrics :
  (∀ metric, metric ∈ metrics → ∃ v, reads_as metric.2 v) →
  ∃ block,
    Forall2 (records str label) metrics block ∧
    ∀ model_card,
      for_each metrics (annotate_metric str label) model_card =
      (Ok tt, add_metrics model_card block).
Proof.
  induction metrics as [|[name metric_value] metrics IH]; intros Hall.
  - exists []. split; [constructor|]. intros model_card. by rewrite add_metrics_nil.
  - destruct (Hall (name, metric_value)) as [v Hv]; [by left|].
    destruct IH as (block & Hblock & Hrun); [intros m Hm; apply Hall; by right|].
    eexists (_ :: block). split.
    + constructor; [by exists v | exact Hblock].
    + intros model_card. rewrite for_each_cons. unfold annotate_metric at 1.
      unfold mbind, M_bind, lift. simpl in Hv.
      rewrite (parse_metric_value_reads _ _ Hv). unfold append_metric.
      rewrite Hrun. f_equal. apply (add_metrics_app _ [_] block).
Qed.

Lemma annotate_slices_ok slices :
  (∀ slice, slice ∈ slices →
     (∃ dims, slice.1 = PyTuple (dimension <$> dims)) ∧
     ∀ metric, metric ∈ slice.2 → ∃ v, reads_as metric.2 v) →
  ∃ blocks,
    Forall2 (slice_records str) slices blocks ∧
    ∀ model_card,
      for_each slices (annotate_slice str) model_card =
      (Ok tt, add_metrics model_card (concat blocks)).
Proof.
  induction slices as [|[slice_repr metrics] slices IH]; intros Hall.
  - exists []. split; [constructor|]. intros model_card. by rewrite add_metrics_nil.
  - destruct (Hall (slice_repr, metrics)) as [[dims Hdims] Hmetrics]; [by left|].
    simpl in Hdims, Hmetrics. subst slice_repr.
    destruct (annotate_metrics_ok (slice_label str dims) metrics Hmetrics)
      as (block & Hblock & Hrun).
    destruct IH as (blocks & Hblocks & Hruns); [intros s Hs; apply Hall; by right|].
    exists (block :: blocks). split.
    + constructor; [by exists dims | exact Hblocks].
    + intros model_card. rewrite for_each_cons. unfold annotate_slice at 1.
      unfold mbind, M_bind, lift. rewrite slice_name_of_dimensions, Hrun, Hruns.
      simpl. by rewrite add_metrics_app.
Qed.

Lemma slice_records_length (M : nat) slices blocks :
  Forall2 (slice_records str) slices blocks →
  (∀ slice, slice ∈ slices → length slice.2 = M) →
  length (concat blocks) = (length slices * M)%nat.
Proof.
  induction 1 as [|slice block slices blocks (dims & _ & Hblock) _ IH]; intros Hlen;
    [done|].
  simpl. rewrite length_app, IH by (intros s Hs; apply Hlen; by right).
  apply Forall2_length in Hblock. rewrite <- Hblock, (Hlen slice) by by left. done.
Qed.

(** C6: for an evaluation result of N slices, each with M well-shaped
    metrics and a key that is a tuple of (name, value) dimensions, the
    annotator appends N×M records to the card's performance metrics, in
    encounter order: slice after slice, and within a slice metric after
    metric.  Each record holds the metric's name, the text of its value and
    the slice's label, which joins with ["_X_"] the dimensions rendered as
    ["name_value"]; the label of the empty tuple is the empty text. *)
Theorem annotation_appends_all_records (model_card : ModelCard.t)
    (eval_result : EvalResult.t) (N M : nat) :
  let slices := EvalResult.get_metrics_for_all_slices eval_result in
  length slices = N →
  (∀ slice, slice ∈ slices →
     length slice.2 = M ∧
     (∃ dims, slice.1 = PyTuple (dimension <$> dims)) ∧
     ∀ metric, metric ∈ slice.2 → ∃ v, reads_as metric.2 v) →
  ∃ blocks,
    annotate_eval_result_metrics str model_card eval_result =
      (Ok tt, add_metrics model_card (concat blocks)) ∧
    length (concat blocks) = (N * M)%nat ∧
    Forall2 (slice_records str) slices blocks ∧
    slice_label str [] = "".
Proof.
  intros slices HN Hall.
  destruct (annotate_slices_ok slices) as (blocks & Hblocks & Hrun).
  { intros slice Hslice. by destruct (Hall slice Hslice) as (_ & ? & ?). }
  exists blocks. split_and!.
  - apply Hrun.
  - rewrite <- HN. apply slice_records_length; [done|].
    intros slice Hslice. by destruct (Hall slice Hslice) as (? & _).
  - exact Hblocks.
  - reflexivity.
Qed.

(** C7, amended: the annotator stops at the first failure.  When the
    slices before a slice are annotated without failure, it fails with the
    invalid-slice-representation error if the key of that slice is not a
    tuple, and, the key being a tuple of (name, value) dimensions and the
    metrics before a metric being well-shaped, with the
    unexpected-metric-value-shape error if that metric's value has neither
    a ["doubleValue"] nor a ["boundedValue"] field. *)
Theorem annotation_stops_at_first_failure (model_card : ModelCard.t)
    (eval_result : EvalResult.t)
    (before after : list (PyVal * list (string * list (string * PyVal))))
    (slice_repr : PyVal) (metrics : list (string * list (string * PyVal))) :
  EvalResult.get_metrics_for_all_slices eval_result =
    before ++ (slice_repr, metrics) :: after →
  (annotate_eval_result_metrics str model_card
     {| EvalResult.get_metrics_for_all_slices := before |}).1 = Ok tt →
  (is_tuple slice_repr = false →
   (annotate_eval_result_metrics str model_card eval_result).1 =
     Raise (SliceNotTuple (type_name slice_repr))) ∧
  (∀ dims earlier name metric_value later,
     slice_repr = PyTuple (dimension <$> dims) →
     metrics = earlier ++ (name, metric_value) :: later →
     (∀ metric, metric ∈ earlier → ∃ v, reads_as metric.2 v) →
     "doubleValue" ∉ metric_value.*1 →
     "boundedValue" ∉ metric_value.*1 →
     (annotate_eval_result_metrics str model_card eval_result).1 =
       Raise (UnexpectedMetricValue metric_value.*1)).
Proof.
  unfold annotate_eval_result_metrics. simpl. intros -> Hbefore.
  rewrite for_each_app.
  destruct (for_each before (annotate_slice str) model_card) as [[[]|e] model_card'];
    [clear Hbefore | discriminate Hbefore].
  rewrite for_each_cons. unfold annotate_slice at 1 3. unfold mbind, M_bind, lift.
  split.
  - intros Htuple. by destruct slice_repr.
  - intros dims earlier name metric_value later -> -> Hearlier Hd Hb.
    rewrite slice_name_of_dimensions, for_each_app.
    destruct (annotate_metrics_ok (slice_label str dims) earlier Hearlier)
      as (block & _ & ->).
    rewrite for_each_cons. unfold annotate_metric at 1. unfold mbind, M_bind, lift.
    by rewrite parse_metric_value_neither.
Qed.

Lemma appends_only_bind {A B} (m : M A) (f : A → M B) :
  appends_only m → (∀ a, appends_only (f a)) → appends_only (m ≫= f).
Proof.
  intros Hm Hf model_card. unfold mbind, M_bind.
  destruct (Hm model_card) as [block1 Hblock1].
  destruct (m model_card) as [[a|e] model_card']; simpl in Hblock1; subst model_card'.
  - destruct (Hf a (add_metrics model_card block1)) as [block2 ->].
    exists (block1 ++ block2). by rewrite add_metrics_app.
  - by exists block1.
Qed.

Lemma appends_only_lift {A} (r : result A) : appends_only (lift r).
Proof. intros model_card. exists []. by rewrite add_metrics_nil. Qed.

Lemma appends_only_append metric : appends_only (append_metric metric).
Proof. intros model_card. by exists [metric]. Qed.

Lemma appends_only_for_each {A} (xs : list A) (body : A → M unit) :
  (∀ x, appends_only (body x)) → appends_only (for_each xs body).
Proof.
  intros Hbody. induction xs as [|x xs IH].
  - intros model_card. exists []. by rewrite add_metrics_nil.
  - apply appends_only_bind; [apply Hbody | by intros _].
Qed.

(** C10: the annotator only appends to the card's performance metrics.
    Whether it returns or fails, the records the card held are still at
    the head of the list, unchanged and in place, and the model details
    (name, version, references) are as they were. *)
Theorem annotation_only_appends (model_card : ModelCard.t)
    (eval_result : EvalResult.t) :
  let annotated := (annotate_eval_result_metrics str model_card eval_result).2 in
  ModelCard.model_details annotated = ModelCard.model_details model_card ∧
  ∃ block,
    QuantitativeAnalysis.performance_metrics (ModelCard.quantitative_analysis annotated) =
    QuantitativeAnalysis.performance_metrics (ModelCard.quantitative_analysis model_card)
      ++ block.
Proof.
  assert (Hrun : appends_only
            (for_each (EvalResult.get_metrics_for_all_slices eval_result)
               (annotate_slice str))).
  { apply appends_only_for_each. intros [slice_repr metrics].
    apply appends_only_bind; [apply appends_only_lift|]. intros slice_name.
    apply appends_only_for_each. intros [metric_name metric_value].
    apply appends_only_bind; [apply appends_only_lift|]. intros parsed_value.
    apply appends_only_append. }
  destruct (Hrun model_card) as [block Hblock].
  unfold annotate_eval_result_metrics. simpl. rewrite Hblock.
  split; [done | by exists block].
Qed.
End AnnotatorProperties.

Lemma annotation_appends_all_records_witness :
  ∃ blocks,
    annotate_eval_result_metrics str_plain Evaluation.card Evaluation.sliced =
      (Ok tt, add_metrics Evaluation.card (concat blocks)) ∧
    length (concat blocks) = 6%nat.
Proof.
  destruct (annotation_appends_all_records str_plain Evaluation.card Evaluation.sliced 3 2)
    as (blocks & Hrun & Hlen & _).
  - reflexivity.
  - intros slice Hslice. simpl in Hslice.
    assert (Hmetrics : ∀ count mean metric,
              metric ∈ Evaluation.metrics count mean → ∃ v, reads_as metric.2 v).
    { intros count mean metric Hmetric. unfold Evaluation.metrics in Hmetric.
      rewrite !elem_of_cons, elem_of_nil in Hmetric.
      destruct Hmetric as [->|[->|[]]].
      - exists (PyInt count). by left.
      - exists (PyInt mean). right. split; [done|]. by eexists. }
    rewrite !elem_of_cons, elem_of_nil in Hslice.
    destruct Hslice as [->|[->|[->|[]]]]; (split_and!; [done | | apply Hmetrics]).
    + by exists [(PyStr "weekday", PyInt 0)].
    + by exists [(PyStr "gender", PyStr "male"); (PyStr "age", PyInt 10)].
    + by exists [].
  - exists blocks. by split.
Defined.

Lemma annotation_stops_at_first_failure_witness :
  (annotate_eval_result_metrics str_plain Evaluation.card Evaluation.text_key).1 =
    Raise (SliceNotTuple "str") ∧
  (annotate_eval_result_metrics str_plain Evaluation.card Evaluation.array_metric).1 =
    Raise (UnexpectedMetricValue ["arrayValue"]).
Proof.
  split.
  - apply (annotation_stops_at_first_failure str_plain Evaluation.card
             Evaluation.text_key [(PyTuple [], Evaluation.metrics 1540 5)] []
             (PyStr "Overall") (Evaluation.metrics 1540 5)); reflexivity.
  - destruct (annotation_stops_at_first_failure str_plain Evaluation.card
                Evaluation.array_metric [] [] (PyTuple [])
                [("example_count", [("doubleValue", PyInt 1540)]);
                 ("confusion", [("arrayValue", PyList [PyInt 1; PyInt 2])]);
                 ("label/mean", [("boundedValue", Evaluation.bounded 5 0 9)])])
      as [_ Hmetric]; [reflexivity | reflexivity |].
    apply (Hmetric [] [("example_count", [("doubleValue", PyInt 1540)])] "confusion"
             [("arrayValue", PyList [PyInt 1; PyInt 2])]
             [("label/mean", [("boundedValue", Evaluation.bounded 5 0 9)])]).
    + reflexivity.
    + reflexivity.
    + intros metric Hmetric'. apply list_elem_of_singleton in Hmetric' as ->.
      exists (PyInt 1540). by left.
    + simpl. rewrite list_elem_of_singleton. discriminate.
    + simpl. rewrite list_elem_of_singleton. discriminate.
Defined.

(** C7, as first stated, fails on three inputs.  A key that is a tuple of
    one two-letter text is not a tuple of (name, value) pairs, and the
    annotator accepts it, unpacking the text into its letters.  A key that
    is a tuple of an integer makes it fail on unpacking, with the
    interpreter's TypeError and not with its own invalid-slice error.  A
    bounded value without ["value"] has neither of the two shapes, and the
    failure is the interpreter's KeyError. *)
Lemma annotation_failures_not_as_stated :
  annotate_eval_result_metrics str_plain ModelCard.new Evaluation.text_in_tuple =
    (Ok tt,
     add_metrics ModelCard.new
       [ {| PerformanceMetric.type := "example_count";
            PerformanceMetric.value := "7";
            PerformanceMetric.slice := "a_b" |} ]) ∧
  (annotate_eval_result_metrics str_plain ModelCard.new Evaluation.int_in_tuple).1 =
    Raise (UnpackNonIterable "int") ∧
  exc_class (UnpackNonIterable "int") = TypeError ∧
  (annotate_eval_result_metrics str_plain ModelCard.new
     Evaluation.bounded_without_value).1 = Raise (MissingKey "value") ∧
  exc_class (MissingKey "value") = KeyError.
Proof. split_and!; vm_compute; reflexivity. Qed.

(** * Further properties *)

(** ** The two walkers *)

Lemma type_filter_ok_iff (filter_id : option Z) (type_id : Z) :
  type_filter_ok filter_id type_id ↔ ∀ i, filter_id = Some i → type_id = i.
Proof.
  destruct filter_id as [i|]; simpl.
  - rewrite bool_decide_spec. split; [by intros -> ? [= <-] | by intros H; apply H].
  - split; [by intros _ ? [=] | done].
Qed.

Lemma elem_of_one_hop_executions store artifact_ids direction filter_type x :
  x ∈ _get_one_hop_executions store artifact_ids direction filter_type ↔
  x ∈ executions store ∧
  Execution.id x ∈
    hop_executions_ids store artifact_ids (te_execution (traverse_events direction)) ∧
  ∀ t, filter_type = Some t → Execution.type_id x = ExecutionType.id t.
Proof.
  unfold _get_one_hop_executions, get_executions_by_id.
  rewrite list_elem_of_filter, list_elem_of_filter, elem_of_elements, type_filter_ok_iff.
  assert (Hfilter : (∀ i, ExecutionType.id <$> filter_type = Some i →
                          Execution.type_id x = i) ↔
                    ∀ t, filter_type = Some t → Execution.type_id x = ExecutionType.id t).
  { destruct filter_type as [t|]; simpl; [|by split; intros _ ? [=]].
    split; [intros H ? [= <-]; by apply H | intros H ? [= <-]; by apply H]. }
  rewrite Hfilter. destruct direction; simpl; tauto.
Qed.

Lemma one_hop_executions_walk_spec store artifact_ids direction filter_type accepted :
  (∀ ty, ty ∈ te_execution (traverse_events direction) ↔ accepted ty) →
  execution_walk_spec store artifact_ids accepted filter_type
    (_get_one_hop_executions store artifact_ids direction filter_type).
Proof.
  intros Haccepted. split.
  - unfold _get_one_hop_executions, get_executions_by_id. etrans; apply sublist_filter.
  - intros x. rewrite elem_of_one_hop_executions, elem_of_hop_executions_ids.
    by setoid_rewrite Haccepted.
Qed.

(** X1: the execution walk returns, in the order of the store, the
    executions whose id is on an event that touches a starting artifact and
    has type OUTPUT or DECLARED_OUTPUT towards ANCESTOR, INPUT or
    DECLARED_INPUT towards SUCCESSOR; under a type filter only executions
    of the filter's type id are returned. *)
Theorem one_hop_executions_by_direction (store : MetadataStore.t)
    (artifact_ids : list Z) (filter_type : option ExecutionType.t) :
  execution_walk_spec store artifact_ids is_output filter_type
    (_get_one_hop_executions store artifact_ids ANCESTOR filter_type) ∧
  execution_walk_spec store artifact_ids is_input filter_type
    (_get_one_hop_executions store artifact_ids SUCCESSOR filter_type).
Proof.
  split; apply one_hop_executions_walk_spec; simpl;
    auto using elem_of_output_types, elem_of_input_types.
Qed.

Lemma elem_of_second_hop_types direction ty :
  ty ∈ te_artifact (traverse_events direction) ↔ second_hop direction ty.
Proof.
  destruct direction; simpl; [apply elem_of_input_types | apply elem_of_output_types].
Qed.

(** X2: in a store that holds the execution of each of its events, the
    artifact walk finds the artifacts that an event of the second hop's
    type links to an execution found by the unfiltered execution walk from
    the same artifacts in the same direction. *)
Theorem one_hop_artifacts_through_executions (store : MetadataStore.t)
    (artifact_ids : list Z) (direction : _Direction)
    (filter_type : option ArtifactType.t) (artifact : Artifact.t) :
  executions_recorded store →
  artifact ∈ _get_one_hop_artifacts store artifact_ids direction filter_type ↔
  artifact ∈ artifacts store ∧
  (∃ x ev, x ∈ _get_one_hop_executions store artifact_ids direction None ∧
           ev ∈ events store ∧ Event.execution_id ev = Execution.id x ∧
           second_hop direction (Event.type ev) ∧
           Event.artifact_id ev = Artifact.id artifact) ∧
  ∀ t, filter_type = Some t → Artifact.type_id artifact = ArtifactType.id t.
Proof.
  intros Hrecorded.
  rewrite elem_of_one_hop_artifacts, elem_of_hop_artifacts_ids.
  setoid_rewrite elem_of_one_hop_executions.
  setoid_rewrite elem_of_second_hop_types.
  split.
  - intros (Ha & (ev & Hev & Hexe & Hty & Hid) & Hft). split_and!; [done| |done].
    destruct (Hrecorded ev Hev) as (x & Hx & Hxid).
    exists x, ev. rewrite Hxid. by split_and!.
  - intros (Ha & (x & ev & (Hx & Hexe & _) & Hev & Hxid & Hty & Hid) & Hft).
    split_and!; [done| |done]. exists ev. rewrite Hxid. by split_and!.
Qed.

Lemma pipeline_executions_recorded : executions_recorded Pipeline.store.
Proof.
  intros ev Hev.
  assert (Hin : Event.execution_id ev ∈ Execution.id <$> executions Pipeline.store).
  { revert ev Hev. apply Forall_forall. refine (bool_decide_unpack _ _). by vm_compute. }
  apply list_elem_of_fmap in Hin as (x & Hid & Hx). by exists x.
Qed.

Lemma one_hop_artifacts_through_executions_witness :
  Pipeline.transformed ∈
    _get_one_hop_artifacts Pipeline.store [4] ANCESTOR (Some Pipeline.examples_type) ↔
  Pipeline.transformed ∈ artifacts Pipeline.store ∧
  (∃ x ev, x ∈ _get_one_hop_executions Pipeline.store [4] ANCESTOR None ∧
           ev ∈ events Pipeline.store ∧ Event.execution_id ev = Execution.id x ∧
           second_hop ANCESTOR (Event.type ev) ∧
           Event.artifact_id ev = Artifact.id Pipeline.transformed) ∧
  ∀ t, Some Pipeline.examples_type = Some t →
       Artifact.type_id Pipeline.transformed = ArtifactType.id t.
Proof.
  apply (one_hop_artifacts_through_executions Pipeline.store [4] ANCESTOR
           (Some Pipeline.examples_type) Pipeline.transformed).
  exact pipeline_executions_recorded.
Defined.

Lemma hop_executions_ids_same_ids store ids1 ids2 accepted :
  (∀ i, i ∈ ids1 ↔ i ∈ ids2) →
  hop_executions_ids store ids1 accepted = hop_executions_ids store ids2 accepted.
Proof.
  intros Hsame. apply set_eq. intros e.
  rewrite !elem_of_hop_executions_ids. by setoid_rewrite Hsame.
Qed.

Lemma one_hop_artifacts_same_ids store ids1 ids2 direction filter_type :
  (∀ i, i ∈ ids1 ↔ i ∈ ids2) →
  _get_one_hop_artifacts store ids1 direction filter_type =
  _get_one_hop_artifacts store ids2 direction filter_type.
Proof.
  intros Hsame. unfold _get_one_hop_artifacts.
  by rewrite (hop_executions_ids_same_ids store ids1 ids2 _ Hsame).
Qed.

(** X3: both walks depend on the starting ids only through the ids that
    occur among them: two lists with the same members, in any order and
    with any repetition, give the same result. *)
Theorem one_hop_walks_depend_on_id_set (store : MetadataStore.t) (ids1 ids2 : list Z)
    (direction : _Direction) (artifact_filter : option ArtifactType.t)
    (execution_filter : option ExecutionType.t) :
  (∀ i, i ∈ ids1 ↔ i ∈ ids2) →
  _get_one_hop_artifacts store ids1 direction artifact_filter =
    _get_one_hop_artifacts store ids2 direction artifact_filter ∧
  _get_one_hop_executions store ids1 direction execution_filter =
    _get_one_hop_executions store ids2 direction execution_filter.
Proof.
  intros Hsame. split; [by apply one_hop_artifacts_same_ids|].
  unfold _get_one_hop_executions.
  by rewrite (hop_executions_ids_same_ids store ids1 ids2 _ Hsame).
Qed.

Lemma one_hop_walks_depend_on_id_set_witness :
  _get_one_hop_artifacts Pipeline.store [4; 1; 4] SUCCESSOR None =
    _get_one_hop_artifacts Pipeline.store [1; 4] SUCCESSOR None ∧
  _get_one_hop_executions Pipeline.store [4; 1; 4] SUCCESSOR None =
    _get_one_hop_executions Pipeline.store [1; 4] SUCCESSOR None.
Proof.
  apply (one_hop_walks_depend_on_id_set Pipeline.store [4; 1; 4] [1; 4]).
  intros i. rewrite !elem_of_cons, elem_of_nil. tauto.
Defined.

(** X4: between artifacts of the store, the unfiltered walks in the two
    directions are converse: [a] is one hop after [b] exactly when [b] is
    one hop before [a]. *)
Theorem ancestor_successor_converse (store : MetadataStore.t) (a b : Artifact.t) :
  a ∈ artifacts store → b ∈ artifacts store →
  a ∈ _get_one_hop_artifacts store [Artifact.id b] SUCCESSOR None ↔
  b ∈ _get_one_hop_artifacts store [Artifact.id a] ANCESTOR None.
Proof.
  intros Ha Hb. rewrite !elem_of_one_hop_artifacts, !elem_of_hop_artifacts_ids.
  setoid_rewrite elem_of_hop_executions_ids.
  setoid_rewrite list_elem_of_singleton. simpl.
  split.
  - intros (_ & (ev2 & Hev2 & (ev1 & Hev1 & Hid1 & Hty1 & Hexe) & Hty2 & Hid2) & _).
    split_and!; [done | | by intros ? [=]].
    exists ev1. split_and!; [done | | done | done]. by exists ev2.
  - intros (_ & (ev2 & Hev2 & (ev1 & Hev1 & Hid1 & Hty1 & Hexe) & Hty2 & Hid2) & _).
    split_and!; [done | | by intros ? [=]].
    exists ev1. split_and!; [done | | done | done]. by exists ev2.
Qed.

Lemma ancestor_successor_converse_witness :
  Pipeline.evaluation ∈ _get_one_hop_artifacts Pipeline.store [4] SUCCESSOR None ↔
  Pipeline.model ∈ _get_one_hop_artifacts Pipeline.store [5] ANCESTOR None.
Proof.
  apply (ancestor_successor_converse Pipeline.store Pipeline.evaluation Pipeline.model).
  - simpl. rewrite !elem_of_cons. auto 10.
  - simpl. rewrite !elem_of_cons. auto 10.
Defined.

(** ** The metrics-for-model query *)

(** X5: for a valid model id, the metrics-for-model query returns the
    artifacts of the store that have the Metrics type id and are the
    output (OUTPUT or DECLARED_OUTPUT) of an execution that has the model
    as an input (INPUT or DECLARED_INPUT), and no other. *)
Theorem metrics_for_model_exact (store : MetadataStore.t) (model_id : Z)
    (given : option PipelineTypes) (types : PipelineTypes) (model : Artifact.t) :
  resolve_types store given = Ok types →
  _validate_model_id store (model_type types) model_id = Ok model →
  ∃ metrics,
    get_metrics_artifacts_for_model store model_id given = Ok metrics ∧
    ∀ a, a ∈ metrics ↔
         a ∈ artifacts store ∧
         Artifact.type_id a = ArtifactType.id (metrics_type types) ∧
         ∃ consumed produced,
           consumed ∈ events store ∧ produced ∈ events store ∧
           Event.artifact_id consumed = model_id ∧ is_input (Event.type consumed) ∧
           Event.execution_id produced = Event.execution_id consumed ∧
           is_output (Event.type produced) ∧
           Event.artifact_id produced = Artifact.id a.
Proof.
  intros Hres Hv. eexists. split.
  - by apply (get_metrics_valid store model_id given types model).
  - intros a. rewrite elem_of_one_hop_artifacts, elem_of_hop_artifacts_ids.
    setoid_rewrite elem_of_hop_executions_ids.
    setoid_rewrite list_elem_of_singleton. simpl.
    setoid_rewrite elem_of_input_types. setoid_rewrite elem_of_output_types.
    split.
    + intros (Ha & (ev2 & Hev2 & (ev1 & Hev1 & Hid1 & Hty1 & Hexe) & Hty2 & Hid2) & Hft).
      split_and!; [done | by apply Hft |]. exists ev1, ev2. by split_and!.
    + intros (Ha & Hty & ev1 & ev2 & Hev1 & Hev2 & Hid1 & Hty1 & Hexe & Hty2 & Hid2).
      split_and!; [done | | by intros ? [= <-]].
      exists ev2. split_and!; [done | | done | done]. by exists ev1.
Qed.

Lemma metrics_for_model_exact_witness :
  ∃ metrics,
    get_metrics_artifacts_for_model Pipeline.store 4 None = Ok metrics ∧
    ∀ a, a ∈ metrics ↔
         a ∈ artifacts Pipeline.store ∧
         Artifact.type_id a = ArtifactType.id (metrics_type Pipeline.types) ∧
         ∃ consumed produced,
           consumed ∈ events Pipeline.store ∧ produced ∈ events Pipeline.store ∧
           Event.artifact_id consumed = 4 ∧ is_input (Event.type consumed) ∧
           Event.execution_id produced = Event.execution_id consumed ∧
           is_output (Event.type produced) ∧
           Event.artifact_id produced = Artifact.id a.
Proof.
  apply (metrics_for_model_exact Pipeline.store 4 None Pipeline.types Pipeline.model).
  - vm_compute. reflexivity.
  - vm_compute. reflexivity.
Defined.

(** ** The statistics-for-model query without transformed examples *)

Lemma one_hop_artifacts_from_nothing store direction filter_type :
  _get_one_hop_artifacts store [] direction filter_type = [].
Proof.
  apply elem_of_nil_inv. intros a Ha.
  apply elem_of_one_hop_artifacts_from in Ha as (i & Hi & _).
  by apply elem_of_nil in Hi.
Qed.

(** X6: for a valid model id none of whose one-hop ANCESTOR dataset
    artifacts has ["/Transform/"] in its URI, the statistics-for-model
    query is the SUCCESSOR hop, filtered to the Statistics type, from the
    ids of those artifacts; when there is no such artifact at all, it
    returns the empty list and no error. *)
Theorem stats_for_model_untransformed (store : MetadataStore.t) (model_id : Z)
    (given : option PipelineTypes) (types : PipelineTypes) (model : Artifact.t) :
  resolve_types store given = Ok types →
  _validate_model_id store (model_type types) model_id = Ok model →
  let trainer_examples :=
    _get_one_hop_artifacts store [model_id] ANCESTOR (Some (dataset_type types)) in
  (∀ a, a ∈ trainer_examples → ¬ Substring "/Transform/" (Artifact.uri a)) →
  get_stats_artifacts_for_model store model_id given =
    Ok (_get_one_hop_artifacts store (Artifact.id <$> trainer_examples) SUCCESSOR
          (Some (stats_type types))) ∧
  (trainer_examples = [] →
   get_stats_artifacts_for_model store model_id given = Ok []).
Proof.
  intros Hres Hv trainer_examples Hraw.
  assert (Hstats : get_stats_artifacts_for_model store model_id given =
    Ok (_get_one_hop_artifacts store (Artifact.id <$> trainer_examples) SUCCESSOR
          (Some (stats_type types)))).
  { rewrite (get_stats_valid store model_id given types model Hres Hv).
    fold trainer_examples. f_equal. apply one_hop_artifacts_same_ids. intros i.
    destruct (split_trainer_examples_spec trainer_examples) as [Hplain Htransformed].
    rewrite elem_of_elements, elem_of_union, elem_of_list_to_set, Hplain.
    rewrite !list_elem_of_fmap. split.
    - intros [(a & Ha & <- & _) | (d & -> & Hd)]; [by exists a|].
      apply elem_of_one_hop_artifacts_from in Hd as (t & Ht & _).
      apply elem_of_elements, Htransformed in Ht as (a & Ha & _ & Hmark).
      by destruct (Hraw a Ha).
    - intros (a & -> & Ha). left. exists a. split_and!; [done | done | by apply Hraw]. }
  split; [exact Hstats|]. intros Hnone. rewrite Hstats, Hnone. simpl.
  by rewrite one_hop_artifacts_from_nothing.
Qed.

Lemma stats_for_model_untransformed_witness :
  get_stats_artifacts_for_model Variants.raw_store 4 None =
    Ok (_get_one_hop_artifacts Variants.raw_store
          (Artifact.id <$> _get_one_hop_artifacts Variants.raw_store [4] ANCESTOR
                             (Some Pipeline.examples_type))
          SUCCESSOR (Some Pipeline.statistics_type)) ∧
  get_stats_artifacts_for_model Variants.raw_store 4 None = Ok [Pipeline.statistics].
Proof.
  destruct (stats_for_model_untransformed Variants.raw_store 4 None Pipeline.types
              Pipeline.model) as [Hstats _].
  - vm_compute. reflexivity.
  - vm_compute. reflexivity.
  - intros a Ha Hmark. apply str_find_found in Hmark.
    change (a ∈ [Pipeline.examples]) in Ha.
    apply list_elem_of_singleton in Ha as ->. by vm_compute in Hmark.
  - split; [exact Hstats | vm_compute; reflexivity].
Defined.

(** ** The type resolver on a store with all the types *)

Lemma index_by_name_snoc {A} (name : A → string) (xs : list A) (x : A) :
  index_by_name name (xs ++ [x]) = <[name x := x]> (index_by_name name xs).
Proof. unfold index_by_name. by rewrite foldl_app. Qed.

Lemma lookup_index_by_name_last {A} (name : A → string) (xs : list A) n x :
  index_by_name name xs !! n = Some x → last_named name xs n x.
Proof.
  induction xs as [|y xs IH] using rev_ind.
  - unfold index_by_name. simpl. by rewrite lookup_empty.
  - rewrite index_by_name_snoc. destruct (decide (name y = n)) as [<-|Hne].
    + rewrite lookup_insert_eq. intros [= <-]. exists xs, [].
      split_and!; [done | done |]. intros z Hz. by apply elem_of_nil in Hz.
    + rewrite lookup_insert_ne by done. intros Hx.
      destruct (IH Hx) as (before & after & -> & Hname & Hafter).
      exists before, (after ++ [y]). split_and!.
      * by rewrite <- app_assoc.
      * done.
      * intros z Hz. apply elem_of_app in Hz as [Hz|Hz]; [by apply Hafter|].
        apply list_elem_of_singleton in Hz as ->. done.
Qed.

Lemma pipeline_types_lookups store types :
  _get_tfx_pipeline_types store = Ok types →
  index_by_name ArtifactType.name (get_artifact_types store) !! _TFX_DATASET_TYPE =
    Some (dataset_type types) ∧
  index_by_name ArtifactType.name (get_artifact_types store) !! _TFX_STATS_TYPE =
    Some (stats_type types) ∧
  index_by_name ArtifactType.name (get_artifact_types store) !! _TFX_MODEL_TYPE =
    Some (model_type types) ∧
  index_by_name ArtifactType.name (get_artifact_types store) !! _TFX_METRICS_TYPE =
    Some (metrics_type types) ∧
  index_by_name ExecutionType.name (get_execution_types store) !! _TFX_TRAINER_TYPE =
    Some (trainer_type types).
Proof.
  unfold _get_tfx_pipeline_types, getitem.
  repeat case_bool_decide; try discriminate.
  repeat match goal with
         | |- context [index_by_name ?f ?l !! ?k] =>
             destruct (index_by_name f l !! k); simpl; try discriminate
         end.
  by intros [= <-].
Qed.

(** X7: in a store that registers the four required artifact type names
    and the trainer execution type name, the resolver returns a registry,
    and each type of the registry is the last one that the store lists
    under its required name: of two types registered under one name, the
    later one is taken. *)
Theorem pipeline_types_resolve_to_last (store : MetadataStore.t) :
  (∀ n, required_artifact_type n → ¬ absent_artifact_type store n) →
  ¬ absent_execution_type store _TFX_TRAINER_TYPE →
  ∃ types,
    _get_tfx_pipeline_types store = Ok types ∧
    last_named ArtifactType.name (artifact_types store) "Examples"
      (dataset_type types) ∧
    last_named ArtifactType.name (artifact_types store) "ExampleStatistics"
      (stats_type types) ∧
    last_named ArtifactType.name (artifact_types store) "Model" (model_type types) ∧
    last_named ArtifactType.name (artifact_types store) "ModelEvaluation"
      (metrics_type types) ∧
    last_named ExecutionType.name (execution_types store)
      "tfx.components.trainer.component.Trainer" (trainer_type types).
Proof.
  intros Hall Hexe.
  destruct (pipeline_types_resolved store Hall Hexe) as (types & Hok & _).
  exists types. split; [exact Hok|].
  destruct (pipeline_types_lookups store types Hok) as (H1 & H2 & H3 & H4 & H5).
  split_and!; by apply lookup_index_by_name_last.
Qed.

(** With a second type registered under ["Model"], the registry holds
    the second. *)
Lemma pipeline_types_resolve_to_last_witness :
  ∃ types,
    _get_tfx_pipeline_types Variants.retyped_store = Ok types ∧
    model_type types = Variants.model_v2_type.
Proof.
  destruct (pipeline_types_resolve_to_last Variants.retyped_store)
    as (types & Hok & _).
  - intros n Hn Habsent. unfold absent_artifact_type in Habsent.
    destruct Hn as [-> | [-> | [-> | ->]]].
    + by apply (Habsent Pipeline.examples_type); [simpl; rewrite !elem_of_cons; auto|].
    + by apply (Habsent Pipeline.statistics_type); [simpl; rewrite !elem_of_cons; auto|].
    + by apply (Habsent Pipeline.model_artifact_type);
        [simpl; rewrite !elem_of_cons; auto|].
    + by apply (Habsent Pipeline.evaluation_type);
        [simpl; rewrite !elem_of_cons; auto 6|].
  - intros Habsent.
    by apply (Habsent Pipeline.trainer_execution_type); [simpl; rewrite !elem_of_cons; auto|].
  - exists types. split; [exact Hok|].
    assert (Hrun : _get_tfx_pipeline_types Variants.retyped_store =
              Ok {| dataset_type := Pipeline.examples_type;
                    stats_type := Pipeline.statistics_type;
                    model_type := Variants.model_v2_type;
                    metrics_type := Pipeline.evaluation_type;
                    trainer_type := Pipeline.trainer_execution_type |})
      by (vm_compute; reflexivity).
    rewrite Hrun in Hok. by injection Hok as <-.
Defined.

(** ** The model validator, read backwards *)

Lemma filter_first {A} (P : A → Prop) `{∀ x, Decision (P x)} (l : list A) x rest :
  filter P l = x :: rest →
  ∃ before after, l = before ++ x :: after ∧ P x ∧ ∀ y, y ∈ before → ¬ P y.
Proof.
  induction l as [|y l IH]; [done|].
  destruct (decide (P y)) as [Hy|Hy].
  - rewrite filter_cons_True by done. intros [= Hyx _]. subst y. exists [], l.
    split_and!; [done | done |]. intros z Hz. by apply elem_of_nil in Hz.
  - rewrite filter_cons_False by done. intros Hl.
    destruct (IH Hl) as (before & after & -> & Hx & Hbefore).
    exists (y :: before), after. split_and!; [done | done |].
    intros z Hz. apply elem_of_cons in Hz as [->|Hz]; [done | by apply Hbefore].
Qed.

Lemma filter_none {A} (P : A → Prop) `{∀ x, Decision (P x)} (l : list A) :
  filter P l = [] → ∀ y, y ∈ l → ¬ P y.
Proof. intros Hl y Hy HP. by apply (filter_nil_not_elem_of P l y). Qed.

(** X8: what the validator's outcome says of the store.  A returned
    artifact is the first artifact of the store with the id asked for and
    has the Model type's id; the not-found error carries the id asked for
    and the store has no artifact with it; the not-a-Model error carries
    the first artifact with the id, which has another type id; there is no
    other outcome. *)
Theorem validate_model_id_outcomes (store : MetadataStore.t) (mtype : ArtifactType.t)
    (model_id : Z) :
  match _validate_model_id store mtype model_id with
  | Ok model =>
      found_by_id store model_id (Some model) ∧
      Artifact.type_id model = ArtifactType.id mtype
  | Raise (ModelIdNotFound i) => i = model_id ∧ found_by_id store model_id None
  | Raise (NotAnInstanceOfModel model) =>
      found_by_id store model_id (Some model) ∧
      Artifact.type_id model ≠ ArtifactType.id mtype
  | Raise _ => False
  end.
Proof.
  unfold _validate_model_id, get_artifacts_by_id.
  destruct (filter _ (artifacts store)) as [|model rest] eqn:Hfilter.
  - split; [done|]. intros a Ha Hid.
    apply (filter_none _ _ Hfilter a Ha). by apply list_elem_of_singleton.
  - apply filter_first in Hfilter as (before & after & Hstore & Hid & Hbefore).
    apply list_elem_of_singleton in Hid.
    assert (Hfound : found_by_id store model_id (Some model)).
    { exists before, after. split_and!; [done | done |].
      intros a Ha Haid. apply (Hbefore a Ha). by apply list_elem_of_singleton. }
    case_bool_decide as Hty; [done|]. split; [done|].
    by destruct (decide (Artifact.type_id model = ArtifactType.id mtype)).
Qed.

(** ** The property reader without a value *)

(** X9: the property reader returns None exactly when the name is not in
    the map it is asked to read, so a property that is present never reads
    as absent; a present property whose value has no field populated reads
    as the empty text. *)
Theorem property_value_none_iff_absent {A : Type} `{Node A} (node : A) (name : string)
    (is_custom_property : bool) :
  (_property_value node name is_custom_property = PyNone ↔
   selected_properties node is_custom_property !! name = None) ∧
  (selected_properties node is_custom_property !! name = Some ValueNotSet →
   _property_value node name is_custom_property = PyStr "").
Proof.
  unfold _property_value, selected_properties.
  destruct ((if is_custom_property then custom_properties node else properties node)
              !! name) as [value|].
  - split; [|by intros [= ->]]. split; [|done]. by destruct value.
  - by split.
Qed.

(** ** More on the metric annotator *)

Section AnnotatorFurther.
Variable str : PyVal → string.

Lemma card_blind_bind {A B} (m : M A) (f : A → M B) :
  card_blind m → (∀ a, card_blind (f a)) → card_blind (m ≫= f).
Proof.
  intros (r & block1 & Hm) Hf. unfold mbind, M_bind. destruct r as [a|e].
  - destruct (Hf a) as (r2 & block2 & Hfa). exists r2, (block1 ++ block2).
    intros model_card. by rewrite Hm, Hfa, add_metrics_app.
  - exists (Raise e), block1. intros model_card. by rewrite Hm.
Qed.

Lemma card_blind_lift {A} (r : result A) : card_blind (lift r).
Proof. exists r, []. intros model_card. by rewrite add_metrics_nil. Qed.

Lemma card_blind_append metric : card_blind (append_metric metric).
Proof. by exists (Ok tt), [metric]. Qed.

Lemma card_blind_for_each {A} (xs : list A) (body : A → M unit) :
  (∀ x, card_blind (body x)) → card_blind (for_each xs body).
Proof.
  intros Hbody. induction xs as [|x xs IH].
  - exists (Ok tt), []. intros model_card. by rewrite add_metrics_nil.
  - apply card_blind_bind; [apply Hbody | by intros _].
Qed.

(** X10: the annotator does not read the card.  For an evaluation
    result, whether it returns or fails, and with which error, and the
    records it appends, are the same whatever card it is given. *)
Theorem annotation_ignores_card (eval_result : EvalResult.t) :
  ∃ outcome block,
    ∀ model_card,
      annotate_eval_result_metrics str model_card eval_result =
      (outcome, add_metrics model_card block).
Proof.
  unfold annotate_eval_result_metrics.
  apply card_blind_for_each. intros [slice_repr metrics].
  apply card_blind_bind; [apply card_blind_lift|]. intros slice_name.
  apply card_blind_for_each. intros [metric_name metric_value].
  apply card_blind_bind; [apply card_blind_lift|]. intros parsed_value.
  apply card_blind_append.
Qed.

(** X11: the annotation of an evaluation result can be split at any of
    its slices: with the slices of the result being [first] followed by
    [second], annotating with the result is annotating with [first] and
    then, if that did not fail, with [second] on the card as [first] left
    it; a failure within [first] is the failure of the whole, and [second]
    is not reached. *)
Theorem annotation_splits_at_any_slice (model_card : ModelCard.t)
    (eval_result : EvalResult.t)
    (first second : list (PyVal * list (string * list (string * PyVal)))) :
  EvalResult.get_metrics_for_all_slices eval_result = first ++ second →
  annotate_eval_result_metrics str model_card eval_result =
  match annotate_eval_result_metrics str model_card
          {| EvalResult.get_metrics_for_all_slices := first |} with
  | (Ok _, annotated) =>
      annotate_eval_result_metrics str annotated
        {| EvalResult.get_metrics_for_all_slices := second |}
  | (Raise e, annotated) => (Raise e, annotated)
  end.
Proof.
  unfold annotate_eval_result_metrics. simpl. intros ->. apply for_each_app.
Qed.

Lemma parse_metric_value_ok metric_value v :
  parse_metric_value metric_value = Ok v ↔ reads_as metric_value v.
Proof.
  split; [|apply parse_metric_value_reads].
  unfold parse_metric_value, reads_as, getitem_items.
  destruct (contains_key metric_value "doubleValue") eqn:Hd.
  - destruct (lookup_items metric_value "doubleValue"); [|done]. intros [= ->]. by left.
  - apply contains_key_false in Hd. rewrite Hd.
    destruct (contains_key metric_value "boundedValue"); [|done].
    destruct (lookup_items metric_value "boundedValue") as [bounded|]; [|done].
    simpl. destruct bounded as [| | | | | |items]; try done. simpl.
    unfold getitem_items. destruct (lookup_items items "value") eqn:Hv; [|done].
    intros [= ->]. right. split; [done|]. by exists items.
Qed.

Lemma mapM_result_cons {A B} (f : A → result B) (x : A) (l : list A) :
  mapM f (x :: l) =
  match f x with
  | Ok y => match mapM f l with Ok k => Ok (y :: k) | Raise e => Raise e end
  | Raise e => Raise e
  end.
Proof. cbn [mapM]. by destruct (f x). Qed.

Lemma slice_name_of_ok items :
  (∃ name, slice_name_of str items = Ok name) ↔
  ∀ x, x ∈ items → ∃ ab, unpack2 x = Ok ab.
Proof.
  unfold slice_name_of.
  set (f := λ x, '(a, b) ← unpack2 x; mret (str a +:+ "_" +:+ str b)).
  assert (Hf : ∀ x, (∃ part, f x = Ok part) ↔ ∃ ab, unpack2 x = Ok ab).
  { intros x. unfold f. destruct (unpack2 x) as [[a b]|e]; simpl.
    - split; intros _; by eexists.
    - split; intros [? [=]]. }
  assert (Hparts : (∃ parts, mapM f items = Ok parts) ↔
                   ∀ x, x ∈ items → ∃ ab, unpack2 x = Ok ab).
  { induction items as [|x items IH].
    - split; [intros _ y Hy; by apply elem_of_nil in Hy | by exists []].
    - rewrite mapM_result_cons. split.
      + intros [parts Hparts] y Hy.
        destruct (f x) as [part|e] eqn:Hx; [|done].
        destruct (mapM f items) as [rest|e] eqn:Hrest; [|done].
        apply elem_of_cons in Hy as [->|Hy]; [apply Hf; by eexists|].
        apply (proj1 IH); [by eexists | done].
      + intros Hall. destruct (proj2 (Hf x)) as [part ->]; [apply Hall; by left|].
        destruct (proj2 IH) as [rest ->]; [intros y Hy; apply Hall; by right|].
        by eexists. }
  rewrite <- Hparts. split.
  - intros [name Hname]. destruct (mapM f items) as [parts|e]; [by eexists | done].
  - intros [parts ->]. by eexists.
Qed.

Lemma for_each_ok {A} (xs : list A) (body : A → M unit) (P : A → Prop) :
  (∀ x model_card, (body x model_card).1 = Ok tt ↔ P x) →
  ∀ model_card, (for_each xs body model_card).1 = Ok tt ↔ ∀ x, x ∈ xs → P x.
Proof.
  intros Hbody. induction xs as [|x xs IH]; intros model_card.
  - split; [intros _ y Hy; by apply elem_of_nil in Hy | done].
  - rewrite for_each_cons. specialize (Hbody x model_card).
    destruct (body x model_card) as [[[]|e] model_card']; simpl in Hbody.
    + rewrite IH. split.
      * intros Hxs y Hy. apply elem_of_cons in Hy as [->|Hy]; [by apply Hbody | auto].
      * intros Hall y Hy. apply Hall. by right.
    + simpl. split; [done|]. intros Hall.
      assert (Raise e = Ok tt) by (apply Hbody, Hall; by left). done.
Qed.

(** X12: the annotator returns without failure exactly when every slice
    key is a tuple whose members each unpack into two values and every
    metric value carries a value, through its ["doubleValue"] field, or
    without that field through the ["value"] field of a dict under
    ["boundedValue"]. *)
Theorem annotation_succeeds_iff (model_card : ModelCard.t)
    (eval_result : EvalResult.t) :
  (annotate_eval_result_metrics str model_card eval_result).1 = Ok tt ↔
  ∀ slice, slice ∈ EvalResult.get_metrics_for_all_slices eval_result →
           annotates slice.
Proof.
  unfold annotate_eval_result_metrics. apply for_each_ok.
  intros [slice_repr metrics] card. unfold annotates. simpl.
  unfold mbind, M_bind, lift.
  destruct slice_repr as [| | | |items| |];
    try (split; [done | by intros [(? & [=] & _) _]]).
  destruct (slice_name_of str items) as [name|e] eqn:Hname.
  - assert (Hitems : ∀ x, x ∈ items → ∃ ab, unpack2 x = Ok ab)
      by (apply slice_name_of_ok; by eexists).
    rewrite (for_each_ok metrics (annotate_metric str name)
               (λ metric, ∃ v, reads_as metric.2 v)).
    + split; [intros Hm; split; [by exists items | done] | by intros [_ Hm]].
    + intros [metric_name metric_value] card'. unfold annotate_metric.
      unfold mbind, M_bind, lift. simpl.
      destruct (parse_metric_value metric_value) as [v|e] eqn:Hv; simpl.
      * split; [intros _; exists v; by apply parse_metric_value_ok | done].
      * split; [done|]. intros [v Hread]. apply parse_metric_value_ok in Hread.
        congruence.
  - simpl. split; [done|]. intros [(items' & [= <-] & Hitems) _].
    apply slice_name_of_ok in Hitems as [name Hok]. congruence.
Qed.

(** X13: a failure leaves on the card what was appended before it.  When
    the slices before a slice are well-formed and the key of that slice is
    not a tuple, the card holds the records of the slices before; when the
    key is a tuple of dimensions and, after well-shaped metrics, a metric
    value has neither field, the card holds also the records of those
    metrics of the failing slice. *)
Theorem annotation_keeps_earlier_records (model_card : ModelCard.t)
    (eval_result : EvalResult.t)
    (before after : list (PyVal * list (string * list (string * PyVal))))
    (slice_repr : PyVal) (metrics : list (string * list (string * PyVal))) :
  EvalResult.get_metrics_for_all_slices eval_result =
    before ++ (slice_repr, metrics) :: after →
  (∀ slice, slice ∈ before →
     (∃ dims, slice.1 = PyTuple (dimension <$> dims)) ∧
     ∀ metric, metric ∈ slice.2 → ∃ v, reads_as metric.2 v) →
  ∃ blocks,
    Forall2 (slice_records str) before blocks ∧
    (is_tuple slice_repr = false →
     annotate_eval_result_metrics str model_card eval_result =
       (Raise (SliceNotTuple (type_name slice_repr)),
        add_metrics model_card (concat blocks))) ∧
    (∀ dims earlier name metric_value later,
       slice_repr = PyTuple (dimension <$> dims) →
       metrics = earlier ++ (name, metric_value) :: later →
       (∀ metric, metric ∈ earlier → ∃ v, reads_as metric.2 v) →
       "doubleValue" ∉ metric_value.*1 →
       "boundedValue" ∉ metric_value.*1 →
       ∃ block,
         Forall2 (records str (slice_label str dims)) earlier block ∧
         annotate_eval_result_metrics str model_card eval_result =
           (Raise (UnexpectedMetricValue metric_value.*1),
            add_metrics model_card (concat blocks ++ block))).
Proof.
  unfold annotate_eval_result_metrics. simpl. intros -> Hbefore.
  destruct (annotate_slices_ok str before Hbefore) as (blocks & Hblocks & Hrun).
  exists blocks. split; [exact Hblocks|].
  rewrite for_each_app, Hrun, for_each_cons.
  unfold annotate_slice at 1 3. unfold mbind, M_bind, lift. split.
  - intros Htuple. by destruct slice_repr.
  - intros dims earlier name metric_value later -> -> Hearlier Hd Hb.
    destruct (annotate_metrics_ok str (slice_label str dims) earlier Hearlier)
      as (block & Hblock & Hmetrics).
    exists block. split; [exact Hblock|].
    rewrite slice_name_of_dimensions, for_each_app, Hmetrics, for_each_cons.
    unfold annotate_metric at 1. unfold mbind, M_bind, lift.
    rewrite parse_metric_value_neither by done. by rewrite add_metrics_app.
Qed.
End AnnotatorFurther.

(** The result of three slices, split after the first. *)
Lemma annotation_splits_at_any_slice_witness :
  annotate_eval_result_metrics str_plain Evaluation.card Evaluation.sliced =
  match annotate_eval_result_metrics str_plain Evaluation.card
          {| EvalResult.get_metrics_for_all_slices :=
               [(PyTuple [PyTuple [PyStr "weekday"; PyInt 0]],
                 Evaluation.metrics 120 4)] |} with
  | (Ok _, annotated) =>
      annotate_eval_result_metrics str_plain annotated
        {| EvalResult.get_metrics_for_all_slices :=
             [(PyTuple [PyTuple [PyStr "gender"; PyStr "male"];
                        PyTuple [PyStr "age"; PyInt 10]], Evaluation.metrics 75 3);
              (PyTuple [], Evaluation.metrics 1540 5)] |}
  | (Raise e, annotated) => (Raise e, annotated)
  end.
Proof.
  apply (annotation_splits_at_any_slice str_plain Evaluation.card Evaluation.sliced).
  reflexivity.
Defined.

Lemma annotation_keeps_earlier_records_witness :
  annotate_eval_result_metrics str_plain ModelCard.new Evaluation.text_key =
    (Raise (SliceNotTuple "str"),
     add_metrics ModelCard.new
       [ {| PerformanceMetric.type := "example_count";
            PerformanceMetric.value := "1540"; PerformanceMetric.slice := "" |};
         {| PerformanceMetric.type := "label/mean";
            PerformanceMetric.value := "5"; PerformanceMetric.slice := "" |} ]).
Proof.
  destruct (annotation_keeps_earlier_records str_plain ModelCard.new Evaluation.text_key
              [(PyTuple [], Evaluation.metrics 1540 5)] [] (PyStr "Overall")
              (Evaluation.metrics 1540 5)) as (blocks & _ & Hfail & _).
  - reflexivity.
  - intros slice Hslice. apply list_elem_of_singleton in Hslice as ->. split.
    + by exists [].
    + intros metric Hmetric. simpl in Hmetric. unfold Evaluation.metrics in Hmetric.
      rewrite !elem_of_cons, elem_of_nil in Hmetric.
      destruct Hmetric as [-> | [-> | []]].
      * exists (PyInt 1540). by left.
      * exists (PyInt 5). right. split; [done|]. by eexists.
  - vm_compute. reflexivity.
Defined.

(** ** Generation, then annotation *)

(** X14: the card that generation returns for a valid model id holds no
    performance metric, with or without trainer executions, so that after
    the annotation of a well-formed evaluation result its performance
    metrics are the records of that result and nothing else, next to the
    model details that generation wrote. *)
Theorem generated_card_annotated (str : PyVal → string) (store : MetadataStore.t)
    (model_id : Z) (given : option PipelineTypes) (types : PipelineTypes)
    (model : Artifact.t) (eval_result : EvalResult.t) :
  resolve_types store given = Ok types →
  _validate_model_id store (model_type types) model_id = Ok model →
  (∀ slice, slice ∈ EvalResult.get_metrics_for_all_slices eval_result →
     (∃ dims, slice.1 = PyTuple (dimension <$> dims)) ∧
     ∀ metric, metric ∈ slice.2 → ∃ v, reads_as metric.2 v) →
  ∃ card blocks annotated,
    generate_model_card_for_model store model_id given = Ok card ∧
    metrics_of card = [] ∧
    annotate_eval_result_metrics str card eval_result = (Ok tt, annotated) ∧
    Forall2 (slice_records str) (EvalResult.get_metrics_for_all_slices eval_result)
      blocks ∧
    metrics_of annotated = concat blocks ∧
    ModelCard.model_details annotated = ModelCard.model_details card.
Proof.
  intros Hres Hv Hslices.
  destruct (annotate_slices_ok str _ Hslices) as (blocks & Hblocks & Hrun).
  pose proof (generate_model_card_valid store model_id given types model Hres Hv)
    as Hgen.
  simpl in Hgen.
  match type of Hgen with _ = Ok ?c => set (card := c) in * end.
  assert (Hempty : metrics_of card = []) by (unfold card; by repeat case_match).
  exists card, blocks, (add_metrics card (concat blocks)). split_and!.
  - exact Hgen.
  - exact Hempty.
  - apply Hrun.
  - exact Hblocks.
  - unfold metrics_of in *. simpl. by rewrite Hempty.
  - reflexivity.
Qed.

Lemma generated_card_annotated_witness :
  ∃ card blocks annotated,
    generate_model_card_for_model Pipeline.store 4 None = Ok card ∧
    metrics_of card = [] ∧
    annotate_eval_result_metrics str_plain card Evaluation.sliced = (Ok tt, annotated) ∧
    Forall2 (slice_records str_plain)
      (EvalResult.get_metrics_for_all_slices Evaluation.sliced) blocks ∧
    metrics_of annotated = concat blocks ∧
    ModelCard.model_details annotated = ModelCard.model_details card.
Proof.
  apply (generated_card_annotated str_plain Pipeline.store 4 None Pipeline.types
           Pipeline.model Evaluation.sliced).
  - vm_compute. reflexivity.
  - vm_compute. reflexivity.
  - intros slice Hslice. simpl in Hslice.
    assert (Hmetrics : ∀ count mean metric,
              metric ∈ Evaluation.metrics count mean → ∃ v, reads_as metric.2 v).
    { intros count mean metric Hmetric. unfold Evaluation.metrics in Hmetric.
      rewrite !elem_of_cons, elem_of_nil in Hmetric.
      destruct Hmetric as [-> | [-> | []]].
      - exists (PyInt count). by left.
      - exists (PyInt mean). right. split; [done|]. by eexists. }
    rewrite !elem_of_cons, elem_of_nil in Hslice.
    destruct Hslice as [-> | [-> | [-> | []]]]; (split; [|apply Hmetrics]).
    + by exists [(PyStr "weekday", PyInt 0)].
    + by exists [(PyStr "gender", PyStr "male"); (PyStr "age", PyInt 10)].
    + by exists [].
Defined.

(** ** The statistics payload reader *)

Lemma endswith_sep_snoc (path : string) : endswith_sep (path +:+ "/") = true.
Proof.
  induction path as [|c path IH]; [done|].
  rewrite append_cons. destruct path as [|c' path]; [done|].
  rewrite append_cons in *. exact IH.
Qed.

Lemma append_assoc (s t u : string) : (s +:+ t) +:+ u = s +:+ t +:+ u.
Proof.
  induction s as [|c s IH]; [done|]. rewrite !append_cons. by rewrite IH.
Qed.

Lemma join_component_trailing_sep (path b : string) :
  path ≠ "" → endswith_sep path = false →
  join_component (path +:+ "/") b = join_component path b.
Proof.
  intros Hne Hend. unfold join_component.
  destruct (String.prefix "/" b); [done|].
  rewrite endswith_sep_snoc, Hend, orb_true_r.
  rewrite bool_decide_false by done. simpl. apply append_assoc.
Qed.

Lemma os_path_join_absolute (a1 a2 b : string) (rest : list string) :
  String.prefix "/" b = true →
  os_path_join a1 (b :: rest) = os_path_join a2 (b :: rest).
Proof.
  intros Habs. unfold os_path_join. cbn [foldl].
  assert (Hstep : join_component a1 b = join_component a2 b)
    by (unfold join_component; by rewrite Habs).
  by rewrite Hstep.
Qed.

Section StatsReader.
Context {E Stats : Type} (env : Environment E Stats).

(** X15: the reader returns no value exactly when neither
    [FeatureStats.pb] nor [stats_tfrecord] exists under the joined path,
    and it logs a warning exactly then; in every other case it returns
    statistics or fails with what the environment raised. *)
Theorem read_stats_proto_none_iff (stats_artifact_uri split : string) :
  let read := read_stats_proto env stats_artifact_uri split in
  (read.1 = Returned None ↔
   os_path_exists env (feature_stats_path stats_artifact_uri split) = false ∧
   os_path_exists env (stats_tfrecord_path stats_artifact_uri split) = false) ∧
  (read.2 ≠ [] ↔ read.1 = Returned None).
Proof.
  unfold read_stats_proto.
  destruct (os_path_exists env (feature_stats_path _ _)).
  - destruct (gfile_read env _) as [content|e]; [|by split; split; [|intros []| |]].
    destruct (ParseFromString env content); by split; split; [|intros []| |].
  - destruct (os_path_exists env (stats_tfrecord_path _ _)).
    + destruct (first_tf_record env _) as [content|e];
        [|by split; split; [|intros []| |]].
      destruct (ParseFromString env content); by split; split; [|intros []| |].
    + by split; split.
Qed.

(** X16: a separator at the end of the artifact's URI makes no
    difference: for a URI that is not empty and does not end with one, the
    reader does the same with and without it. *)
Theorem read_stats_proto_trailing_separator (stats_artifact_uri split : string) :
  stats_artifact_uri ≠ "" → endswith_sep stats_artifact_uri = false →
  read_stats_proto env (stats_artifact_uri +:+ "/") split =
  read_stats_proto env stats_artifact_uri split.
Proof.
  intros Hne Hend. unfold read_stats_proto, feature_stats_path, stats_tfrecord_path,
    os_path_join. cbn [foldl].
  by rewrite join_component_trailing_sep.
Qed.

(** X17: a split that starts with the separator replaces the artifact's
    URI: the reader then does the same whatever the URI is. *)
Theorem read_stats_proto_absolute_split (uri1 uri2 split : string) :
  String.prefix "/" split = true →
  read_stats_proto env uri1 split = read_stats_proto env uri2 split.
Proof.
  intros Habs. unfold read_stats_proto, feature_stats_path, stats_tfrecord_path.
  by rewrite !(os_path_join_absolute uri1 uri2 split _ Habs).
Qed.
End StatsReader.

Lemma read_stats_proto_trailing_separator_witness :
  read_stats_proto Files.env "/pipeline/StatisticsGen/statistics/2/" "Split-eval" =
  read_stats_proto Files.env "/pipeline/StatisticsGen/statistics/2" "Split-eval".
Proof.
  apply (read_stats_proto_trailing_separator Files.env
           "/pipeline/StatisticsGen/statistics/2" "Split-eval"); done.
Defined.

Lemma read_stats_proto_absolute_split_witness :
  read_stats_proto Files.env "/pipeline/StatisticsGen/statistics/2"
    "/pipeline/StatisticsGen/statistics/2/Split-train" =
  read_stats_proto Files.env "" "/pipeline/StatisticsGen/statistics/2/Split-train".
Proof.
  apply (read_stats_proto_absolute_split Files.env
           "/pipeline/StatisticsGen/statistics/2" ""
           "/pipeline/StatisticsGen/statistics/2/Split-train").
  reflexivity.
Defined.
